(** * PyGistApi: the request executor and the gist operations built on it

    A shallow embedding of [PyGistApi/base.py], [PyGistApi/utils.py],
    [PyGistApi/errors.py] and [PyGistApi/async_gist_api.py].

    Python values are a small inductive type, a [str] is the UTF-8 encoding
    of its text (one [ascii] per byte), dictionaries are insertion ordered
    association lists with string keys, and effects (the network,
    [asyncio.sleep], the file system, raised exceptions) are threaded
    through a state-and-exception monad over an explicit [World]. *)

From Stdlib Require Import ZArith List String Ascii Bool Lia QArith DecimalString.
Import ListNotations.
Local Open Scope string_scope.
Local Open Scope Z_scope.

(** ** Python values *)

#[local] Set Warnings "-register-all".

Inductive pyval : Type :=
| PNone
| PBool (b : bool)
| PInt (z : Z)
| PStr (s : string)
| PList (l : list pyval)
| PDict (d : list (string * pyval)).

(** A [dict] with string keys, in insertion order, keys unique. *)
Definition dict : Type := list (string * pyval).

Module Dict.

Fixpoint get (d : dict) (k : string) : option pyval :=
  match d with
  | [] => None
  | (k', v) :: d' => if String.eqb k' k then Some v else get d' k
  end.

(** [k in d] *)
Definition mem (d : dict) (k : string) : bool :=
  match get d k with Some _ => true | None => false end.

(** [d[k] = v]: overwrite in place, or append a new key. *)
Fixpoint set (d : dict) (k : string) (v : pyval) : dict :=
  match d with
  | [] => [(k, v)]
  | (k', v') :: d' =>
      if String.eqb k' k then (k, v) :: d' else (k', v') :: set d' k v
  end.

End Dict.

(** ** String builtins *)

Module Str.

(** [str.isspace] on one character, by the bytes of its UTF-8 encoding.
    One byte: U+0009-U+000D, U+001C-U+0020. *)
Definition isspace (c : ascii) : bool :=
  let n := nat_of_ascii c in
  ((9 <=? n) && (n <=? 13) || (28 <=? n) && (n <=? 32))%nat.

(** Two bytes: U+0085 (C2 85) and U+00A0 (C2 A0). *)
Definition isspace2 (c1 c2 : ascii) : bool :=
  let n1 := nat_of_ascii c1 in
  let n2 := nat_of_ascii c2 in
  ((n1 =? 194) && ((n2 =? 133) || (n2 =? 160)))%nat.

(** Three bytes: U+1680 (E1 9A 80), U+2000-U+200A (E2 80 80-8A), U+2028,
    U+2029 (E2 80 A8, A9), U+202F (E2 80 AF), U+205F (E2 81 9F) and U+3000
    (E3 80 80). *)
Definition isspace3 (c1 c2 c3 : ascii) : bool :=
  let n1 := nat_of_ascii c1 in
  let n2 := nat_of_ascii c2 in
  let n3 := nat_of_ascii c3 in
  ((n1 =? 225) && (n2 =? 154) && (n3 =? 128)
   || (n1 =? 226) && (n2 =? 128)
      && ((128 <=? n3) && (n3 <=? 138) || (n3 =? 168) || (n3 =? 169) || (n3 =? 175))
   || (n1 =? 226) && (n2 =? 129) && (n3 =? 159)
   || (n1 =? 227) && (n2 =? 128) && (n3 =? 128))%nat.

(** [s.lstrip()]: drop the white space characters at the start. *)
Fixpoint lstrip (s : string) : string :=
  match s with
  | EmptyString => EmptyString
  | String c1 s1 =>
      if isspace c1 then lstrip s1
      else
        match s1 with
        | EmptyString => s
        | String c2 s2 =>
            if isspace2 c1 c2 then lstrip s2
            else
              match s2 with
              | EmptyString => s
              | String c3 s3 => if isspace3 c1 c2 c3 then lstrip s3 else s
              end
        end
  end.

(** The same on the reversed bytes of a text: a character's last byte
    comes first. *)
Fixpoint lstrip_reversed (s : string) : string :=
  match s with
  | EmptyString => EmptyString
  | String c1 s1 =>
      if isspace c1 then lstrip_reversed s1
      else
        match s1 with
        | EmptyString => s
        | String c2 s2 =>
            if isspace2 c2 c1 then lstrip_reversed s2
            else
              match s2 with
              | EmptyString => s
              | String c3 s3 => if isspace3 c3 c2 c1 then lstrip_reversed s3 else s
              end
        end
  end.

Fixpoint rev_onto (s acc : string) : string :=
  match s with
  | EmptyString => acc
  | String c s' => rev_onto s' (String c acc)
  end.

Definition rev (s : string) : string := rev_onto s EmptyString.

(** [s.strip()] *)
Definition strip (s : string) : string := rev (lstrip_reversed (rev (lstrip s))).

(** [s.startswith(p)] *)
Definition startswith (s p : string) : bool := String.prefix p s.

(** [p in s] for two strings. *)
Fixpoint contains (s p : string) : bool :=
  String.prefix p s ||
  match s with
  | EmptyString => false
  | String _ s' => contains s' p
  end.

(** The part of [s] after its last ['/']; [cur] is the part read since
    the last separator. *)
Fixpoint after_last_slash (s cur : string) : string :=
  match s with
  | EmptyString => rev cur
  | String c s' =>
      if Ascii.eqb c "/"%char then after_last_slash s' EmptyString
      else after_last_slash s' (String c cur)
  end.

(** [os.path.basename(p)] (posixpath): [p[p.rfind('/') + 1:]]. *)
Definition basename (p : string) : string := after_last_slash p EmptyString.

(** [str(z)] for an [int]. *)
Definition of_Z (z : Z) : string := NilZero.string_of_int (Z.to_int z).

Fixpoint has_char (c : ascii) (s : string) : bool :=
  match s with
  | EmptyString => false
  | String c' s' => Ascii.eqb c c' || has_char c s'
  end.

Definition dquote : ascii := ascii_of_nat 34.

Definition hex_digit (n : nat) : ascii :=
  ascii_of_nat (if (n <? 10)%nat then 48 + n else 87 + n)%nat.

(** One character of [repr(s)] with the chosen quote [q]. *)
Definition repr_char (q c : ascii) : string :=
  let n := nat_of_ascii c in
  if Ascii.eqb c "\"%char then "\\"
  else if Ascii.eqb c q then String "\"%char (String q EmptyString)
  else if (n =? 10)%nat then "\n"
  else if (n =? 13)%nat then "\r"
  else if (n =? 9)%nat then "\t"
  else if ((n <? 32) || (n =? 127))%nat then
    String "\"%char (String "x"%char
      (String (hex_digit (n / 16)) (String (hex_digit (n mod 16)) EmptyString)))
  else String c EmptyString.

Fixpoint repr_body (q : ascii) (s : string) : string :=
  match s with
  | EmptyString => EmptyString
  | String c s' => repr_char q c ++ repr_body q s'
  end.

(** [repr(s)]: single quotes unless the text holds a single quote and no
    double quote; ASCII control characters are escaped, and the bytes of
    other characters are kept, as Python keeps printable characters. *)
Definition repr (s : string) : string :=
  let q := if has_char "'"%char s && negb (has_char dquote s)
           then dquote else "'"%char in
  String q (repr_body q s ++ String q EmptyString).

End Str.

(** ** Builtins on values *)

(** [repr(v)] *)
Fixpoint py_repr (v : pyval) : string :=
  match v with
  | PNone => "None"
  | PBool true => "True"
  | PBool false => "False"
  | PInt z => Str.of_Z z
  | PStr s => Str.repr s
  | PList l =>
      "[" ++
      (fix items (l : list pyval) : string :=
         match l with
         | [] => ""
         | [x] => py_repr x
         | x :: r => py_repr x ++ ", " ++ items r
         end) l ++ "]"
  | PDict d =>
      "{" ++
      (fix items (d : list (string * pyval)) : string :=
         match d with
         | [] => ""
         | [(k, x)] => Str.repr k ++ ": " ++ py_repr x
         | (k, x) :: r => Str.repr k ++ ": " ++ py_repr x ++ ", " ++ items r
         end) d ++ "}"
  end.

(** [str(v)], which is what an f-string field [{v}] inserts. *)
Definition py_str (v : pyval) : string :=
  match v with
  | PStr s => s
  | _ => py_repr v
  end.

(** [isinstance(v, int)]: [bool] is a subclass of [int]. *)
Definition isinstance_int (v : pyval) : bool :=
  match v with
  | PInt _ | PBool _ => true
  | _ => false
  end.

Definition isinstance_str (v : pyval) : bool :=
  match v with PStr _ => true | _ => false end.

Definition isinstance_list (v : pyval) : bool :=
  match v with PList _ => true | _ => false end.

(** The integer an [int] instance stands for ([True] is 1, [False] is 0). *)
Definition int_value (v : pyval) : Z :=
  match v with
  | PInt z => z
  | PBool true => 1
  | _ => 0
  end.

(** Truth value of an optional string argument ([None] and [''] are false). *)
Definition truthy (o : option string) : bool :=
  match o with
  | Some (String _ _) => true
  | _ => false
  end.

(** ** Exceptions ([errors.py], [httpx], builtins) *)

Inductive exn : Type :=
| AuthenticationError (msg : string)
| InvalidArg (msg : string)
| UnExpectedError (msg : string)
| TimeoutException (msg : string)
| FileNotFoundError (msg : string)
| IsADirectoryError (msg : string)
| PermissionError (msg : string)
| UnicodeDecodeError (msg : string)
| RecursionError (msg : string)
| ValueError (msg : string)
| TypeError (msg : string)
| AttributeError (msg : string)
| KeyError (key : string)
| JSONDecodeError.


Definition is_InvalidArg (e : exn) : bool :=
  match e with
  | InvalidArg _ | UnExpectedError _ => true
  | _ => false
  end.

(** ** The world the client runs in *)

(** What [httpx.AsyncClient(headers, timeout).request(method, url, json,
    params)] is called with. *)
Record Request : Type := mkRequest {
  rq_method : string;
  rq_url : string;
  rq_json : option dict;
  rq_params : option dict;
  rq_headers : list (string * string);
  rq_timeout : Z
}.

(** How [resp.json()] can fail: the body is not valid JSON
    ([json.decoder.JSONDecodeError], an empty body included), its bytes are
    no UTF-8, UTF-16 or UTF-32 text ([UnicodeDecodeError]), or it is nested
    too deeply ([RecursionError]); the last two with their [str(e)]. *)
Inductive json_error : Type :=
| NotJSON
| NotUnicode (e : string)
| TooDeep (e : string).

(** What [resp.json()] does: return a value or raise. *)
Inductive decoding : Type :=
| Decoded (v : pyval)
| Invalid (j : json_error).

(** What the server sent back: [resp.status_code] and [resp.json()]. *)
Record Response : Type := mkResponse {
  status_code : Z;
  json : decoding
}.

(** [200 <= status_code <= 299], for which [raise_for_status()] returns. *)
Definition is_success (r : Response) : bool :=
  (200 <=? status_code r) && (status_code r <=? 299).

(** One network exchange either yields a response, or raises
    [httpx.TimeoutException] or some other exception, each with its
    [str(e)]. *)
Inductive outcome : Type :=
| Received (r : Response)
| TimedOut (e : string)
| Failed (e : string).

(** What [httpx.post] to the paste service yields in [paste_content]: it
    raises an [httpx.HTTPError] with text [e], or answers [r];
    [status_error] is the text of the [httpx.HTTPStatusError] that
    [r.raise_for_status()] raises when [r] is no success. *)
Inductive paste_outcome : Type :=
| PasteHTTPError (e : string)
| PasteResponse (r : Response) (status_error : string).

(** What [open(path).read()] does: return the text or raise. *)
Inductive reading : Type :=
| ReadText (text : string)
| ReadFails (e : exn).

Inductive event : Type :=
| EvRequest (rq : Request)
| EvSleep (seconds : Q)
| EvPaste (content : string).

Record World : Type := mkWorld {
  (** whether a path is a regular file ([os.path.isfile]), and then what
      reading it yields *)
  file_at : string -> option reading;
  (** what reading a path that is no regular file yields: an [OSError]
      ([FileNotFoundError], [IsADirectoryError], ...), or the text of a
      device or pipe *)
  open_other : string -> reading;
  (** [os.path.isfile] on an integer file descriptor *)
  fd_isfile : Z -> bool;
  (** the network: outcome of the exchange made after [n] earlier ones *)
  transport : nat -> Request -> outcome;
  (** the paste service *)
  paste_service : string -> paste_outcome;
  (** what has happened so far, oldest first *)
  log : list event
}.

Definition is_request (e : event) : bool :=
  match e with EvRequest _ => true | _ => false end.

(** Number of exchanges with the gist API so far. *)
Definition network_calls (w : World) : nat :=
  List.length (List.filter is_request (log w)).

(** The world after some more events; nothing else of it ever changes. *)
Definition extend (w : World) (evs : list event) : World :=
  mkWorld (file_at w) (open_other w) (fd_isfile w) (transport w) (paste_service w)
    (log w ++ evs).

Definition record (e : event) (w : World) : World := extend w [e].

(** ** A monad for state, exceptions and running out of fuel *)

Inductive result (A : Type) : Type :=
| Ret (a : A)
| Raise (e : exn)
| Diverge.
Arguments Ret {A} a.
Arguments Raise {A} e.
Arguments Diverge {A}.

Definition M (A : Type) : Type := World -> result A * World.

Definition ret {A} (a : A) : M A := fun w => (Ret a, w).
Definition raise {A} (e : exn) : M A := fun w => (Raise e, w).
Definition diverge {A} : M A := fun w => (Diverge, w).

Definition bind {A B} (m : M A) (k : A -> M B) : M B :=
  fun w =>
    match m w with
    | (Ret a, w') => k a w'
    | (Raise e, w') => (Raise e, w')
    | (Diverge, w') => (Diverge, w')
    end.

Declare Scope py_scope.
Delimit Scope py_scope with py.
Notation "x <- m ;; k" := (bind m (fun x => k))
  (at level 61, m at next level, right associativity) : py_scope.
Notation "m ;; k" := (bind m (fun _ => k))
  (at level 61, right associativity) : py_scope.
Local Open Scope py_scope.

(** Lift a pure computation that may raise. *)
Definition lift {A} (r : result A) : M A := fun w => (r, w).

(** [await client.request(...)]: one exchange with the gist API. *)
Definition client_request (rq : Request) : M outcome :=
  fun w => (Ret (transport w (network_calls w) rq), record (EvRequest rq) w).

(** [await asyncio.sleep(seconds)] *)
Definition sleep (seconds : Q) : M unit :=
  fun w => (Ret tt, record (EvSleep seconds) w).

(** [os.path.isfile(v)]: a string is a path, an integer a file descriptor,
    anything else a [TypeError]. *)
Definition os_path_isfile (v : pyval) : M bool :=
  fun w =>
    match v with
    | PStr p => (Ret (match file_at w p with Some _ => true | None => false end), w)
    | PInt z => (Ret (fd_isfile w z), w)
    | PBool b => (Ret (fd_isfile w (if b then 1 else 0)), w)
    | _ => (Raise (TypeError "stat: path should be string, bytes, os.PathLike or integer"), w)
    end.

(** What [open(path).read()] yields in a world. *)
Definition open_read (w : World) (path : string) : reading :=
  match file_at w path with
  | Some r => r
  | None => open_other w path
  end.

(** [open(path).read()] *)
Definition read_file (path : string) : M string :=
  fun w =>
    match open_read w path with
    | ReadText text => (Ret text, w)
    | ReadFails e => (Raise e, w)
    end.

(** ** [utils.get_auth_token] *)

(** The package globals of [__init__.py] ([auth_token], [auth_token_path],
    read from [AUTH_TOKEN] and [AUTH_TOKEN_PATH] at import, and assignable
    afterwards) and the [GITHUB_API_VERSION] environment variable. *)
Record Ambient : Type := mkAmbient {
  pkg_auth_token : option string;
  pkg_auth_token_path : option string;
  env_GITHUB_API_VERSION : option string
}.

Definition get_auth_token (amb : Ambient) : M string :=
  if truthy (pkg_auth_token_path amb) then
    text <- read_file (match pkg_auth_token_path amb with Some p => p | None => "" end) ;;
    let token := Str.strip text in
    if negb (Str.startswith token "ghp_") then raise (ValueError "Invalid Token Format")
    else ret token
  else if truthy (pkg_auth_token amb) then
    ret (match pkg_auth_token amb with Some t => t | None => "" end)
  else
    raise (AuthenticationError
      "You can set your auth token using PyGistApi.auth_token='your auth token' or by setting the environment variable: AUTH_TOKEN=<AUTH-TOKEN>").

(** ** [base.Requester] *)

Record Requester : Type := mkRequester {
  auth_token : string;
  timeout : Z;
  sleep_time : Q;
  retries : Z;
  headers : list (string * string)
}.

Definition BASE_HEADERS (amb : Ambient) : list (string * string) :=
  [ ("Accept", "application/vnd.github+json");
    ("X-GitHub-Api-Version",
     match env_GITHUB_API_VERSION amb with Some v => v | None => "2022-11-28" end) ].

Definition API_URL : string := "https://api.github.com/gists".

(** What an f-string field inserts for an optional string argument. *)
Definition format_opt (o : option string) : string :=
  match o with Some s => s | None => "None" end.

(** [Requester.__init__(self, auth_token, timeout, sleep_time,
    max_connection_retries)].  The header is formatted from the
    {e argument} [auth_token], as in the source. *)
Definition Requester_init (amb : Ambient) (auth_token_arg : option string)
    (timeout_arg : Z) (sleep_time_arg : Q) (max_connection_retries : Z)
  : M Requester :=
  token <- (if truthy auth_token_arg
            then ret (match auth_token_arg with Some t => t | None => "" end)
            else get_auth_token amb) ;;
  ret (mkRequester token timeout_arg sleep_time_arg max_connection_retries
         (BASE_HEADERS amb ++ [("Authorization", "Bearer " ++ format_opt auth_token_arg)])).

(** [headers["Authorization"]] *)
Fixpoint header (hs : list (string * string)) (name : string) : option string :=
  match hs with
  | [] => None
  | (k, v) :: hs' => if String.eqb k name then Some v else header hs' name
  end.

(** The [while resp is None and tries <= self.retries] loop of
    [_async_request].  [fuel] bounds the number of iterations. *)
Fixpoint retry_loop (fuel : nat) (self : Requester) (rq : Request)
    (tries : Z) (resp : option Response) : M (option Response) :=
  match fuel with
  | O => diverge
  | S fuel' =>
      match resp with
      | Some _ => ret resp
      | None =>
          if tries <=? retries self then
            let tries := tries + 1 in
            o <- client_request rq ;;
            match o with
            | Received r =>
                sleep (sleep_time self) ;;
                retry_loop fuel' self rq tries (Some r)
            | TimedOut e =>
                let err := "Timeout error: " ++ e in
                if tries >=? retries self then raise (TimeoutException err)
                else
                  sleep (sleep_time self) ;;
                  retry_loop fuel' self rq tries resp
            | Failed e =>
                let err := "An Unexpected error occurred: " ++ e in
                if tries >=? retries self then raise (UnExpectedError err)
                else
                  sleep (sleep_time self) ;;
                  retry_loop fuel' self rq tries resp
            end
          else ret resp
      end
  end.

(** The code after the loop: decode the body, with only
    [JSONDecodeError] caught and replaced by [{}], and merge the status
    code. *)
Definition normalize (resp : option Response) : result dict :=
  match resp with
  | None => Raise (AttributeError "'NoneType' object has no attribute 'json'")
  | Some r =>
      match json r with
      | Invalid (NotUnicode e) => Raise (UnicodeDecodeError e)
      | Invalid (TooDeep e) => Raise (RecursionError e)
      | Invalid NotJSON | Decoded _ =>
          let json_ := match json r with Decoded v => v | Invalid _ => PDict [] end in
          match json_ with
          | PDict d => Ret (Dict.set d "code" (PInt (status_code r)))
          | PList _ => Raise (TypeError "list indices must be integers or slices, not str")
          | _ => Raise (TypeError "object does not support item assignment")
          end
      end
  end.

(** Iterations the loop can need: one per attempt and the final test. *)
Definition loop_fuel (self : Requester) : nat := Z.to_nat (retries self) + 2.

Definition make_request (self : Requester) (method endpoint : string)
    (data params : option dict) : Request :=
  mkRequest method (API_URL ++ endpoint) data params (headers self) (timeout self).

(** [Requester._async_request(self, method, endpoint, data, params)] *)
Definition _async_request (self : Requester) (method endpoint : string)
    (data params : option dict) : M dict :=
  let rq := make_request self method endpoint data params in
  resp <- retry_loop (loop_fuel self) self rq 0 None ;;
  lift (normalize resp).

(** [Requester._request]: [asyncio.run] drives the same coroutine. *)
Definition _request := _async_request.

(** ** [utils.paste_content] *)

(** [v[key]] for a string key. *)
Definition getitem (v : pyval) (key : string) : M pyval :=
  match v with
  | PDict d =>
      match Dict.get d key with
      | Some x => ret x
      | None => raise (KeyError key)
      end
  | PList _ => raise (TypeError "list indices must be integers or slices, not str")
  | PStr _ => raise (TypeError "string indices must be integers, not 'str'")
  | _ => raise (TypeError "object is not subscriptable")
  end.

Definition paste_content (content : string) : M string :=
  o <- (fun w => (Ret (paste_service w content), record (EvPaste content) w)) ;;
  match o with
  | PasteHTTPError e => ret ("An error occurred: " ++ e)
  | PasteResponse r status_error =>
      if negb (is_success r) then ret ("An error occurred: " ++ status_error)
      else
        match json r with
        | Invalid NotJSON => raise JSONDecodeError
        | Invalid (NotUnicode e) => raise (UnicodeDecodeError e)
        | Invalid (TooDeep e) => raise (RecursionError e)
        | Decoded body =>
            res <- getitem body "result" ;;
            key <- getitem res "key" ;;
            ret ("https://nekobin.com/" ++ py_str key)
        end
  end.

(** ** [async_gist_api.AsyncGistClient] *)

(** [AsyncGistClient.__init__] passes its arguments on to [Requester]. *)
Definition AsyncGistClient_init := Requester_init.

Definition list_gists (self : Requester) (per_page page since : pyval) : M dict :=
  if negb (isinstance_int per_page) || (int_value per_page >? 100) then
    raise (InvalidArg "per_page should be an integer and less than 100")
  else if negb (isinstance_int page) then
    raise (InvalidArg "page should be an integer")
  else
    let params := [("per_page", per_page); ("page", page); ("since", since)] in
    _async_request self "GET" "" None (Some params).

(** The [for file in files] loop of [create_gist], filling [file_data]. *)
Fixpoint read_files (files : list pyval) (file_data : dict) : M dict :=
  match files with
  | [] => ret file_data
  | file :: rest =>
      isf <- os_path_isfile file ;;
      if isf then
        match file with
        | PStr path =>
            let name_of_file := Str.basename path in
            text <- read_file path ;;
            read_files rest
              (Dict.set file_data name_of_file (PDict [("content", PStr (Str.strip text))]))
        | _ => raise (TypeError "expected str, bytes or os.PathLike object, not int")
        end
      else read_files rest file_data
  end.

Definition create_gist (self : Requester) (content : pyval)
    (file_name : option string) (description : string) (public : bool) : M dict :=
  let data := [("description", PStr description); ("public", PBool public)] in
  if negb (isinstance_str content || isinstance_list content) then
    raise (InvalidArg "content should be str, list of file paths, or a single file path")
  else
    from_disk <- (if isinstance_list content then ret true
                  else if isinstance_str content then os_path_isfile content
                  else ret false) ;;
    if from_disk then
      let files := match content with PList l => l | _ => [content] end in
      file_data <- read_files files [] ;;
      match file_data with
      | [] => raise (FileNotFoundError "Unable to locate the file(s)")
      | _ =>
          _async_request self "POST" ""
            (Some (Dict.set data "files" (PDict file_data))) None
      end
    else
      let name := if truthy file_name
                  then match file_name with Some n => n | None => "" end
                  else "untitled.txt" in
      _async_request self "POST" ""
        (Some (Dict.set data "files" (PDict [(name, PDict [("content", content)])]))) None.

(** The [for file, codes in gist["files"].items()] loop of [get_gist]. *)
Fixpoint frame_files (items : list (string * pyval)) (content : string) : M string :=
  match items with
  | [] => ret content
  | (_, codes) :: rest =>
      fname <- getitem codes "filename" ;;
      let content := content ++ "-----" ++ py_str fname ++ "-----" ++ String (ascii_of_nat 10) "" in
      body <- getitem codes "content" ;;
      match body with
      | PStr text =>
          let content := content ++ text in
          fname <- getitem codes "filename" ;;
          frame_files rest
            (content ++ "-----" ++ py_str fname ++ "-----"
               ++ String (ascii_of_nat 10) (String (ascii_of_nat 10) ""))
      | _ => raise (TypeError "can only concatenate str to str")
      end
  end.

Definition get_gist (self : Requester) (gist_id : pyval) (paste : bool) : M dict :=
  gist <- _async_request self "GET" ("/" ++ py_str gist_id) None None ;;
  if negb paste then ret gist
  else
    content <- (match Dict.get gist "files" with
                | None => ret ""
                | Some (PDict files) => frame_files files ""
                | Some _ => raise (AttributeError "object has no attribute 'items'")
                end) ;;
    pasted <- paste_content (if paste then content else "No Content found") ;;
    ret (Dict.set gist "pasted_url" (PStr pasted)).

(** [name in v] for a string [name]: a key of a dict, an element of a list,
    a substring of a string; other values are not containers. *)
Definition py_in (name : string) (v : pyval) : M bool :=
  match v with
  | PDict d => ret (Dict.mem d name)
  | PList l =>
      ret (existsb (fun x => match x with PStr s => String.eqb s name | _ => false end) l)
  | PStr s => ret (Str.contains s name)
  | _ => raise (TypeError "argument is not iterable")
  end.

Definition update_gist (self : Requester) (content gist_id : pyval)
    (filename_to_update : string) (description : string) : M dict :=
  let data := [("description", PStr description)] in
  gist <- get_gist self gist_id false ;;
  match Dict.get gist "files" with
  | None => ret [("message", PStr "files not found")]
  | Some gist_files =>
      present <- py_in filename_to_update gist_files ;;
      if negb present then
        ret [("message", PStr ("File '" ++ filename_to_update ++ "' not found in the Gist."))]
      else if negb (isinstance_str content) then
        raise (InvalidArg "content should be str or a file path")
      else
        isf <- os_path_isfile content ;;
        new_text <- (if isf
                     then text <- read_file (py_str content) ;; ret (PStr (Str.strip text))
                     else ret content) ;;
        _async_request self "PATCH" ("/" ++ py_str gist_id)
          (Some (Dict.set data "files"
                   (PDict [(filename_to_update, PDict [("content", new_text)])]))) None
  end.

Definition delete_gist (self : Requester) (gist_id : pyval) : M dict :=
  _async_request self "DELETE" ("/" ++ py_str gist_id) None None.

Definition public_gists (self : Requester) (per_page page since : pyval) : M dict :=
  if negb (isinstance_int per_page) || (int_value per_page >? 100) then
    raise (InvalidArg "per_page should be an integer and less than 100")
  else if negb (isinstance_int page) then
    raise (InvalidArg "page should be an integer")
  else _async_request self "GET" "/public" None None.

Definition starred_gists (self : Requester) (per_page page since : pyval) : M dict :=
  if negb (isinstance_int per_page) || (int_value per_page >? 100) then
    raise (InvalidArg "per_page should be an integer and less than 100")
  else if negb (isinstance_int page) then
    raise (InvalidArg "page should be an integer")
  else _async_request self "GET" "/starred" None None.

Definition gist_commits (self : Requester) (gist_id per_page page : pyval) : M dict :=
  if negb (isinstance_int per_page) || (int_value per_page >? 100) then
    raise (InvalidArg "per_page should be an integer and less than 100")
  else if negb (isinstance_int page) then
    raise (InvalidArg "page should be an integer")
  else
    _async_request self "GET" ("/" ++ py_str gist_id ++ "/commits") None
      (Some [("per_page", per_page); ("page", page)]).

Definition gist_forks (self : Requester) (gist_id per_page page : pyval) : M dict :=
  if negb (isinstance_int per_page) || (int_value per_page >? 100) then
    raise (InvalidArg "per_page should be an integer and less than 100")
  else if negb (isinstance_int page) then
    raise (InvalidArg "page should be an integer")
  else
    _async_request self "GET" ("/" ++ py_str gist_id ++ "/forks") None
      (Some [("per_page", per_page); ("page", page)]).

Definition fork_gist (self : Requester) (gist_id : pyval) : M dict :=
  _async_request self "POST" ("/" ++ py_str gist_id ++ "/forks") None None.

Definition is_gist_starred (self : Requester) (gist_id : pyval) : M dict :=
  _async_request self "GET" ("/" ++ py_str gist_id ++ "/star") None None.

Definition star_gist (self : Requester) (gist_id : pyval) : M dict :=
  _async_request self "PUT" ("/" ++ py_str gist_id ++ "/star") None None.

Definition unstar_gist (self : Requester) (gist_id : pyval) : M dict :=
  _async_request self "DELETE" ("/" ++ py_str gist_id ++ "/star") None None.

Definition gist_revision (self : Requester) (gist_id : pyval) (sha : pyval) : M dict :=
  _async_request self "GET" ("/" ++ py_str gist_id ++ "/" ++ py_str sha) None None.

(** The five operations that take [per_page] and [page]. *)
Inductive paginated : Type :=
| ListGists (since : pyval)
| PublicGists (since : pyval)
| StarredGists (since : pyval)
| GistCommits (gist_id : pyval)
| GistForks (gist_id : pyval).

Definition call_paginated (self : Requester) (op : paginated)
    (per_page page : pyval) : M dict :=
  match op with
  | ListGists since => list_gists self per_page page since
  | PublicGists since => public_gists self per_page page since
  | StarredGists since => starred_gists self per_page page since
  | GistCommits gist_id => gist_commits self gist_id per_page page
  | GistForks gist_id => gist_forks self gist_id per_page page
  end.

(** * Vocabulary of the properties *)

(** Exchanges with the gist API among some events. *)
Definition count_requests (evs : list event) : nat :=
  List.length (List.filter is_request evs).

(** [n] attempts, each followed by its sleep. *)
Fixpoint attempt_events (rq : Request) (d : Q) (n : nat) : list event :=
  match n with
  | O => []
  | S n' => EvRequest rq :: EvSleep d :: attempt_events rq d n'
  end.

Definition is_failure (o : outcome) : bool :=
  match o with Received _ => false | _ => true end.

(** The exception the loop raises for a failed exchange. *)
Definition raised_by (o : outcome) (e : exn) : Prop :=
  match o with
  | TimedOut m => e = TimeoutException ("Timeout error: " ++ m)
  | Failed m => e = UnExpectedError ("An Unexpected error occurred: " ++ m)
  | Received _ => False
  end.

Definition is_transport_failure (e : exn) : bool :=
  match e with
  | TimeoutException _ | UnExpectedError _ => true
  | _ => false
  end.

(** How a run of the loop that started with [tries] and no response can
    end, after [n] exchanges that left the events [evs]. *)
Definition loop_post (self : Requester) (rq : Request) (w : World) (tries : Z)
    (res : result (option Response)) (evs : list event) (n : nat) : Prop :=
  match res with
  | Ret None => n = O /\ evs = [] /\ retries self < tries
  | Ret (Some r) =>
      exists k, n = S k /\
        transport w (network_calls w + k) rq = Received r /\
        evs = attempt_events rq (sleep_time self) (S k)
  | Raise e =>
      exists k, n = S k /\
        raised_by (transport w (network_calls w + k) rq) e /\
        evs = (attempt_events rq (sleep_time self) k ++ [EvRequest rq])%list /\
        (k = O /\ retries self <= tries + 1 \/ tries + Z.of_nat (S k) = retries self)
  | Diverge => False
  end.

(** What [_async_request] returns or raises once the loop has ended. *)
Definition after_loop (res : result (option Response)) : result dict :=
  match res with
  | Ret resp => normalize resp
  | Raise e => Raise e
  | Diverge => Diverge
  end.

(** Every exchange among [evs] is directly followed by a sleep of [d]. *)
Fixpoint slept_after_each (d : Q) (evs : list event) : Prop :=
  match evs with
  | [] => True
  | EvRequest _ :: rest =>
      match rest with
      | EvSleep d' :: rest' => d' = d /\ slept_after_each d rest'
      | _ => False
      end
  | _ :: rest => slept_after_each d rest
  end.

(** ** Sample clients and worlds *)

(** A client as [Requester.__init__] builds it from an explicit token. *)
Definition sample_client (max_connection_retries : Z) : Requester :=
  mkRequester "ghp_s3cr3t" 5 (1 # 2) max_connection_retries
    [ ("Accept", "application/vnd.github+json");
      ("X-GitHub-Api-Version", "2022-11-28");
      ("Authorization", "Bearer ghp_s3cr3t") ].

(** Opening a path that does not exist. *)
Definition no_such_file (path : string) : reading :=
  ReadFails (FileNotFoundError ("[Errno 2] No such file or directory: '" ++ path ++ "'")).

(** A world whose only paths are the regular text files [files]. *)
Definition world_of (files : string -> option string)
    (net : nat -> Request -> outcome) : World :=
  mkWorld (fun path => option_map ReadText (files path)) no_such_file
    (fun _ => false) net (fun _ => PasteHTTPError "unreachable") [].

Definition no_files : string -> option string := fun _ => None.

(** Every exchange times out. *)
Definition always_timeout : World :=
  world_of no_files (fun _ _ => TimedOut "timed out").

(** The first exchange fails to connect, the next is answered 404 with a
    body that is not JSON. *)
Definition second_answers_404 : World :=
  world_of no_files
    (fun n _ => match n with
                | O => Failed "connection refused"
                | _ => Received (mkResponse 404 (Invalid NotJSON))
                end).

(** The package token is set, no token file, default API version. *)
Definition ambient_token : Ambient := mkAmbient (Some "ghp_ambient") None None.

(** The server answers every exchange with a gist that holds [a.txt]. *)
Definition serves_gist : World :=
  world_of no_files
    (fun _ _ => Received (mkResponse 200 (Decoded (PDict
       [ ("id", PStr "abc");
         ("files", PDict [("a.txt", PDict [("filename", PStr "a.txt");
                                           ("content", PStr "hello")])]) ])))).

(** The server answers every exchange 404 with GitHub's error body. *)
Definition serves_not_found : World :=
  world_of no_files
    (fun _ _ => Received (mkResponse 404 (Decoded (PDict [("message", PStr "Not Found")])))).

(** ** Predicates on arguments and events *)

(** [per_page] and [page] pass the checks of the paginated operations. *)
Definition valid_page_args (per_page page : pyval) : Prop :=
  isinstance_int per_page = true /\ int_value per_page <= 100 /\
  isinstance_int page = true.

(** Every exchange among [evs] is a [GET]. *)
Definition only_gets (evs : list event) : Prop :=
  forall rq, In (EvRequest rq) evs -> rq_method rq = "GET".

(** ** More sample worlds *)

(** The server answers 201 with a body that has its own ["code"] key. *)
Definition serves_body_with_code : World :=
  world_of no_files
    (fun _ _ => Received (mkResponse 201 (Decoded (PDict
       [("code", PStr "abc"); ("id", PStr "x")])))).

(** The server answers 200 with a JSON array. *)
Definition serves_array : World :=
  world_of no_files (fun _ _ => Received (mkResponse 200 (Decoded (PList [])))).

(** A no-break space, U+00A0, in UTF-8. *)
Definition nbsp : string := String (ascii_of_nat 194) (String (ascii_of_nat 160) "").

(** A token file, with white space around the token, and a source file. *)
Definition disk (path : string) : option string :=
  if String.eqb path "/run/secrets/gist"
  then Some (nbsp ++ " ghp_fromfile" ++ nbsp ++ String (ascii_of_nat 10) "")
  else if String.eqb path "src/hello.py"
  then Some (nbsp ++ "print('hello')" ++ String (ascii_of_nat 10) nbsp)
  else if String.eqb path "/run/secrets/bad"
  then Some "token123"
  else None.

Definition with_disk : World :=
  world_of disk (fun _ _ => Received (mkResponse 201 (Decoded (PDict [("id", PStr "new")])))).

(** Both the token file and the package token are configured. *)
Definition ambient_both : Ambient :=
  mkAmbient (Some "ghp_ambient") (Some "/run/secrets/gist") None.

(** The token file holds a token without the prefix. *)
Definition ambient_bad_file : Ambient :=
  mkAmbient (Some "ghp_ambient") (Some "/run/secrets/bad") None.

(** Nothing is configured. *)
Definition ambient_none : Ambient := mkAmbient None (Some "") None.

(** ** The text [get_gist] pastes *)

Definition newline : string := String (ascii_of_nat 10) "".

(** One file's content between the two banners naming it. *)
Definition framed (fname : pyval) (text : string) : string :=
  "-----" ++ py_str fname ++ "-----" ++ newline ++ text ++
  "-----" ++ py_str fname ++ "-----" ++ newline ++ newline.

Fixpoint framed_all (files : list (pyval * string)) : string :=
  match files with
  | [] => ""
  | (fname, text) :: rest => framed fname text ++ framed_all rest
  end.

(** An item of [gist["files"]] is a mapping with [filename] and a string
    [content]. *)
Definition file_entry (item : string * pyval) (file : pyval * string) : Prop :=
  exists codes,
    snd item = PDict codes /\
    Dict.get codes "filename" = Some (fst file) /\
    Dict.get codes "content" = Some (PStr (snd file)).

(** A gist with two files, as the API returns it. *)
Definition two_files : list (string * pyval) :=
  [ ("a.txt", PDict [("filename", PStr "a.txt"); ("content", PStr "hello")]);
    ("b.py", PDict [("filename", PStr "b.py"); ("content", PStr "print(1)")]) ].

(** The server answers with that gist; the paste service is down. *)
Definition serves_two_files : World :=
  mkWorld (fun _ => None) no_such_file (fun _ => false)
    (fun _ _ => Received (mkResponse 200 (Decoded (PDict [("files", PDict two_files)]))))
    (fun _ => PasteHTTPError "503 Service Unavailable") [].

(** The first two exchanges are answered 204 without a body. *)
Definition answers_twice : World :=
  world_of no_files (fun _ _ => Received (mkResponse 204 (Invalid NotJSON))).

(** ** Answers that cannot be decoded, and paste answers *)


(** The paste service answers 503 with a JSON body that names a key. *)
Definition paste_unavailable : World :=
  mkWorld (fun _ => None) no_such_file (fun _ => false)
    (fun _ _ => Received (mkResponse 200 (Decoded (PDict [("files", PDict two_files)]))))
    (fun _ => PasteResponse
                (mkResponse 503 (Decoded (PDict [("result", PDict [("key", PStr "k")])])))
                "Server error '503 Service Unavailable' for url 'https://nekobin.com/api/documents'")
    [].

(** The token file path is a directory, and a source file is not text. *)
Definition odd_disk : World :=
  mkWorld
    (fun path => if String.eqb path "blob.bin"
                 then Some (ReadFails (UnicodeDecodeError
                        "'utf-8' codec can't decode byte 0xff in position 0: invalid start byte"))
                 else if String.eqb path "ok.txt" then Some (ReadText "fine")
                 else None)
    (fun path => if String.eqb path "/run/secrets"
                 then ReadFails (IsADirectoryError "[Errno 21] Is a directory: '/run/secrets'")
                 else no_such_file path)
    (fun _ => false)
    (fun _ _ => Received (mkResponse 201 (Decoded (PDict [("id", PStr "new")]))))
    (fun _ => PasteHTTPError "unreachable") [].

(** The token file path is that directory. *)
Definition ambient_directory : Ambient :=
  mkAmbient (Some "ghp_ambient") (Some "/run/secrets") None.

(** * Properties *)

(** ** Dictionaries *)

Lemma Dict_get_set_same (d : dict) (k : string) (v : pyval) :
  Dict.get (Dict.set d k v) k = Some v.
Proof.
  induction d as [|[k' v'] d IH]; simpl.
  - now rewrite String.eqb_refl.
  - destruct (String.eqb k' k) eqn:E; simpl.
    + now rewrite String.eqb_refl.
    + now rewrite E.
Qed.

Lemma Dict_get_set_other (d : dict) (k k0 : string) (v : pyval) :
  k <> k0 -> Dict.get (Dict.set d k v) k0 = Dict.get d k0.
Proof.
  intros Hne. induction d as [|[k' v'] d IH]; simpl.
  - destruct (String.eqb_spec k k0); [contradiction | reflexivity].
  - destruct (String.eqb_spec k' k) as [->|Hk]; simpl.
    + destruct (String.eqb_spec k k0); [contradiction | reflexivity].
    + destruct (String.eqb k' k0); [reflexivity | exact IH].
Qed.

Lemma Dict_mem_set_same (d : dict) (k : string) (v : pyval) :
  Dict.mem (Dict.set d k v) k = true.
Proof. unfold Dict.mem. now rewrite Dict_get_set_same. Qed.

(** ** Bookkeeping on worlds *)

Lemma extend_nil (w : World) : extend w [] = w.
Proof. destruct w; unfold extend; simpl. now rewrite app_nil_r. Qed.

Lemma extend_extend (w : World) (a b : list event) :
  extend (extend w a) b = extend w (a ++ b)%list.
Proof. unfold extend; simpl. now rewrite app_assoc. Qed.

Lemma count_requests_app (a b : list event) :
  count_requests (a ++ b)%list = (count_requests a + count_requests b)%nat.
Proof. unfold count_requests. now rewrite filter_app, length_app. Qed.

Lemma network_calls_extend (w : World) (evs : list event) :
  network_calls (extend w evs) = (network_calls w + count_requests evs)%nat.
Proof. unfold network_calls, extend; simpl. apply count_requests_app. Qed.

Lemma transport_extend (w : World) (evs : list event) :
  transport (extend w evs) = transport w.
Proof. reflexivity. Qed.

Lemma file_at_extend (w : World) (evs : list event) :
  file_at (extend w evs) = file_at w.
Proof. reflexivity. Qed.

(** ** The shape of every run of the retry loop *)

Lemma count_attempt_events (rq : Request) (d : Q) (n : nat) :
  count_requests (attempt_events rq d n) = n.
Proof.
  induction n as [|n IH]; [reflexivity|].
  change (S (count_requests (attempt_events rq d n)) = S n). now rewrite IH.
Qed.

Lemma raised_by_transport (o : outcome) (e : exn) :
  raised_by o e -> is_transport_failure e = true /\ is_failure o = true.
Proof. destruct o; simpl; intros H; subst; auto; contradiction. Qed.

Section Loop.

Variable self : Requester.
Variable rq : Request.

Lemma loop_exit (fuel : nat) (tries : Z) (w : World) :
  retries self < tries ->
  retry_loop (S fuel) self rq tries None w = (Ret None, w).
Proof.
  intros H. simpl. destruct (Z.leb_spec tries (retries self)); [lia | reflexivity].
Qed.

Lemma loop_done (fuel : nat) (tries : Z) (r : Response) (w : World) :
  retry_loop (S fuel) self rq tries (Some r) w = (Ret (Some r), w).
Proof. reflexivity. Qed.

(** One iteration, by the outcome of its exchange. *)
Lemma loop_step (fuel : nat) (tries : Z) (w : World) :
  tries <= retries self ->
  retry_loop (S fuel) self rq tries None w =
  match transport w (network_calls w) rq with
  | Received r =>
      retry_loop fuel self rq (tries + 1) (Some r)
        (extend w (attempt_events rq (sleep_time self) 1))
  | TimedOut e =>
      if tries + 1 >=? retries self
      then (Raise (TimeoutException ("Timeout error: " ++ e)), extend w [EvRequest rq])
      else retry_loop fuel self rq (tries + 1) None
             (extend w (attempt_events rq (sleep_time self) 1))
  | Failed e =>
      if tries + 1 >=? retries self
      then (Raise (UnExpectedError ("An Unexpected error occurred: " ++ e)),
            extend w [EvRequest rq])
      else retry_loop fuel self rq (tries + 1) None
             (extend w (attempt_events rq (sleep_time self) 1))
  end.
Proof.
  intros H. simpl.
  destruct (Z.leb_spec tries (retries self)); [|lia].
  unfold bind, client_request, sleep, record, raise.
  destruct (transport w (network_calls w) rq) as [r|e|e]; simpl.
  - now rewrite extend_extend.
  - destruct (tries + 1 >=? retries self); [reflexivity|].
    now rewrite extend_extend.
  - destruct (tries + 1 >=? retries self); [reflexivity|].
    now rewrite extend_extend.
Qed.

Theorem loop_shape (fuel : nat) :
  forall (tries : Z) (w : World),
    (Z.to_nat (retries self - tries) + 2 <= fuel)%nat ->
    exists res evs n,
      retry_loop fuel self rq tries None w = (res, extend w evs) /\
      count_requests evs = n /\
      (forall i, (S i < n)%nat ->
         is_failure (transport w (network_calls w + i) rq) = true) /\
      loop_post self rq w tries res evs n.
Proof.
  induction fuel as [|fuel IH]; intros tries w Hfuel; [lia|].
  destruct (Z.lt_ge_cases (retries self) tries) as [Hout|Hin].
  { exists (Ret None), [], O. rewrite loop_exit, extend_nil by assumption.
    repeat split; auto. intros i Hi; lia. }
  rewrite loop_step by assumption.
  set (w1 := extend w (attempt_events rq (sleep_time self) 1)).
  assert (Hcalls : network_calls w1 = S (network_calls w)).
  { unfold w1. rewrite network_calls_extend, count_attempt_events. lia. }
  assert (Hcont :
    tries + 1 < retries self ->
    is_failure (transport w (network_calls w) rq) = true ->
    exists res evs n,
      retry_loop fuel self rq (tries + 1) None w1 = (res, extend w evs) /\
      count_requests evs = n /\
      (forall i, (S i < n)%nat ->
         is_failure (transport w (network_calls w + i) rq) = true) /\
      loop_post self rq w tries res evs n).
  { intros Hlt Hfail.
    destruct (IH (tries + 1) w1) as (res & evs & n & Hrun & Hcnt & Hpre & Hpost); [lia|].
    exists res, (attempt_events rq (sleep_time self) 1 ++ evs)%list, (S n).
    split; [|split; [|split]].
    - rewrite Hrun. unfold w1. now rewrite extend_extend.
    - rewrite count_requests_app, Hcnt. reflexivity.
    - intros [|i] Hi.
      + now rewrite Nat.add_0_r.
      + specialize (Hpre i ltac:(lia)).
        rewrite Hcalls in Hpre. unfold w1 in Hpre. rewrite transport_extend in Hpre.
        now replace (network_calls w + S i)%nat with (S (network_calls w) + i)%nat by lia.
    - destruct res as [[r|]|e|]; simpl in Hpost |- *.
      + destruct Hpost as (k & -> & Htr & ->). exists (S k). repeat split.
        rewrite Hcalls in Htr. unfold w1 in Htr. try rewrite transport_extend in Htr.
        now replace (network_calls w + S k)%nat with (S (network_calls w) + k)%nat by lia.
      + lia.
      + destruct Hpost as (k & -> & Hby & -> & Hlast). exists (S k).
        split; [reflexivity|]. split; [|split; [reflexivity|]].
        * rewrite Hcalls in Hby. unfold w1 in Hby. try rewrite transport_extend in Hby.
          now replace (network_calls w + S k)%nat with (S (network_calls w) + k)%nat by lia.
        * right. lia.
      + assumption. }
  destruct (transport w (network_calls w) rq) as [r|e|e] eqn:Hout.
  - destruct fuel as [|fuel']; [lia|]. rewrite loop_done.
    exists (Ret (Some r)), (attempt_events rq (sleep_time self) 1), 1%nat.
    repeat split; auto; [intros i Hi; lia|].
    exists O. rewrite Nat.add_0_r. auto.
  - destruct (Z.geb_spec (tries + 1) (retries self)) as [Hge|Hlt].
    + exists (Raise (TimeoutException ("Timeout error: " ++ e))), [EvRequest rq], 1%nat.
      repeat split; auto; [intros i Hi; lia|].
      exists O. rewrite Nat.add_0_r, Hout. simpl. repeat split. left. lia.
    + apply Hcont; [lia | reflexivity].
  - destruct (Z.geb_spec (tries + 1) (retries self)) as [Hge|Hlt].
    + exists (Raise (UnExpectedError ("An Unexpected error occurred: " ++ e))),
        [EvRequest rq], 1%nat.
      repeat split; auto; [intros i Hi; lia|].
      exists O. rewrite Nat.add_0_r, Hout. simpl. repeat split. left. lia.
    + apply Hcont; [lia | reflexivity].
Qed.

End Loop.

(** ** Running the monad *)

Lemma bind_run {A B : Type} (m : M A) (k : A -> M B) (w : World) :
  bind m k w = match m w with
               | (Ret a, w1) => k a w1
               | (Raise e, w1) => (Raise e, w1)
               | (Diverge, w1) => (Diverge, w1)
               end.
Proof. unfold bind. destruct (m w) as [[a|e|] w1]; reflexivity. Qed.

(** ** The executor as a whole *)

Lemma async_request_shape (self : Requester) (method endpoint : string)
    (data params : option dict) (w : World) :
  let rq := make_request self method endpoint data params in
  exists res evs n,
    _async_request self method endpoint data params w = (after_loop res, extend w evs) /\
    count_requests evs = n /\
    (forall i, (S i < n)%nat ->
       is_failure (transport w (network_calls w + i) rq) = true) /\
    loop_post self rq w 0 res evs n.
Proof.
  intros rq.
  destruct (loop_shape self rq (loop_fuel self) 0 w) as (res & evs & n & Hrun & Hrest).
  { unfold loop_fuel. lia. }
  exists res, evs, n. split; [|exact Hrest].
  unfold _async_request, bind, lift. fold rq. rewrite Hrun.
  destruct res; reflexivity.
Qed.

Lemma slept_attempt_events (rq : Request) (d : Q) (n : nat) :
  slept_after_each d (attempt_events rq d n).
Proof. induction n as [|n IH]; simpl; auto. Qed.

(** The executor always terminates: the fuel of [loop_fuel] is enough. *)
Lemma async_request_terminates (self : Requester) (method endpoint : string)
    (data params : option dict) (w : World) :
  fst (_async_request self method endpoint data params w) <> Diverge.
Proof.
  destruct (async_request_shape self method endpoint data params w)
    as (res & evs & n & -> & _ & _ & Hpost).
  destruct res as [[r|]|e|]; simpl in *; try discriminate; try contradiction.
  destruct (json r) as [[]|[]]; discriminate.
Qed.

(** X4: with a transport that fails every exchange and [retries >= 0], the
    executor makes [max 1 retries] exchanges and raises the failure of the
    last one. *)
Lemma all_fail_attempts (self : Requester) (method endpoint : string)
    (data params : option dict) (w : World) :
  let rq := make_request self method endpoint data params in
  let run := _async_request self method endpoint data params w in
  0 <= retries self ->
  (forall i, is_failure (transport w i rq) = true) ->
  exists e,
    fst run = Raise e /\
    raised_by (transport w (network_calls (snd run) - 1) rq) e /\
    network_calls (snd run) = (network_calls w + Z.to_nat (Z.max 1 (retries self)))%nat.
Proof.
  intros rq run Hr Hfail. subst run.
  destruct (async_request_shape self method endpoint data params w)
    as (res & evs & n & -> & Hcnt & _ & Hpost). fold rq in Hpost.
  simpl fst; simpl snd. rewrite network_calls_extend, Hcnt.
  destruct res as [[r|]|e|]; simpl in Hpost.
  - destruct Hpost as (k & _ & Htr & _).
    specialize (Hfail (network_calls w + k)%nat). rewrite Htr in Hfail. discriminate.
  - lia.
  - destruct Hpost as (k & -> & Hby & _ & Hlast). exists e. split; [reflexivity|].
    split.
    + now replace (network_calls w + S k - 1)%nat with (network_calls w + k)%nat by lia.
    + lia.
  - contradiction.
Qed.

(** C1: with [max_connection_retries = 2] and a transport that times out
    on every exchange, the executor raises [httpx.TimeoutException] carrying
    the last error's text, but after 2 exchanges, not the [retries + 1 = 3]
    the claim states: the test [tries >= self.retries] in the handlers ends
    the run one attempt before the loop guard [tries <= self.retries]
    would. *)
Theorem retry_budget_one_short :
  let self := sample_client 2 in
  let run := _async_request self "GET" "" None None always_timeout in
  fst run = Raise (TimeoutException "Timeout error: timed out") /\
  network_calls (snd run) = 2%nat /\
  network_calls (snd run) <> Z.to_nat (retries self + 1).
Proof. vm_compute. repeat split. discriminate. Qed.

(** C2, as stated, fails: with [max_connection_retries = 0] and an exchange
    that times out, the run is one exchange and the raise; no sleep follows
    that exchange. *)
Lemma no_sleep_after_raising_attempt :
  let self := sample_client 0 in
  let rq := make_request self "GET" "" None None in
  let run := _async_request self "GET" "" None None always_timeout in
  fst run = Raise (TimeoutException "Timeout error: timed out") /\
  log (snd run) = [EvRequest rq] /\
  ~ slept_after_each (sleep_time self) (log (snd run)).
Proof.
  vm_compute. repeat split. intros H. exact H.
Qed.

(** C2, amended: in every run of the executor each exchange is directly
    followed by a sleep of [sleep_time], the first and a successful one
    included, except the exchange whose failure is raised: a run that raises
    a transport failure ends with that exchange, and no sleep follows it. *)
Theorem sleep_after_each_attempt_but_raising (self : Requester)
    (method endpoint : string) (data params : option dict) (w : World) :
  let rq := make_request self method endpoint data params in
  let run := _async_request self method endpoint data params w in
  exists evs k,
    snd run = extend w evs /\
    match fst run with
    | Raise (TimeoutException _) | Raise (UnExpectedError _) =>
        evs = (attempt_events rq (sleep_time self) k ++ [EvRequest rq])%list
    | _ =>
        evs = attempt_events rq (sleep_time self) k /\
        slept_after_each (sleep_time self) evs
    end.
Proof.
  intros rq run. subst run.
  destruct (async_request_shape self method endpoint data params w)
    as (res & evs & n & -> & Hcnt & _ & Hpost). fold rq in Hpost.
  simpl fst; simpl snd.
  destruct res as [[r|]|e|]; simpl in Hpost.
  - destruct Hpost as (k & _ & _ & ->). exists (attempt_events rq (sleep_time self) (S k)), (S k).
    split; [reflexivity|].
    assert (Hs := slept_attempt_events rq (sleep_time self) (S k)).
    simpl after_loop. unfold normalize.
    destruct (json r) as [[]|[]]; split; solve [reflexivity | exact Hs].
  - destruct Hpost as (-> & -> & _). exists [], O. split; [reflexivity|]. simpl. auto.
  - destruct Hpost as (k & _ & Hby & -> & _).
    exists (attempt_events rq (sleep_time self) k ++ [EvRequest rq])%list, k.
    split; [reflexivity|].
    destruct (transport w (network_calls w + k) rq); simpl in Hby;
      [contradiction | subst e; reflexivity | subst e; reflexivity].
  - contradiction.
Qed.

(** An exchange of this run that was answered is the last one of the run,
    and the run ends with what [normalize] makes of the answer. *)
Lemma received_is_last (self : Requester) (method endpoint : string)
    (data params : option dict) (w : World) (i : nat) (r : Response) :
  let rq := make_request self method endpoint data params in
  let run := _async_request self method endpoint data params w in
  (network_calls w <= i < network_calls (snd run))%nat ->
  transport w i rq = Received r ->
  network_calls (snd run) = S i /\
  fst run = normalize (Some r) /\
  snd run = extend w (attempt_events rq (sleep_time self) (S (i - network_calls w))).
Proof.
  intros rq run Hi Hrecv. subst run.
  destruct (async_request_shape self method endpoint data params w)
    as (res & evs & n & Hrun & Hcnt & Hpre & Hpost). fold rq in Hpre, Hpost.
  rewrite Hrun in *. simpl fst; simpl snd in *.
  rewrite network_calls_extend, Hcnt in *.
  assert (Hlast : (network_calls w + n = S i)%nat).
  { destruct (Nat.eq_dec (network_calls w + n) (S i)) as [E|NE]; [exact E|].
    specialize (Hpre (i - network_calls w)%nat ltac:(lia)).
    replace (network_calls w + (i - network_calls w))%nat with i in Hpre by lia.
    rewrite Hrecv in Hpre. discriminate. }
  split; [exact Hlast|].
  destruct res as [[r'|]|e|]; simpl in Hpost.
  - destruct Hpost as (k & -> & Htr & ->).
    replace (network_calls w + k)%nat with i in Htr by lia.
    rewrite Hrecv in Htr. injection Htr as <-.
    split; [reflexivity|]. now replace (i - network_calls w)%nat with k by lia.
  - lia.
  - destruct Hpost as (k & -> & Hby & _).
    replace (network_calls w + k)%nat with i in Hby by lia.
    rewrite Hrecv in Hby. contradiction.
  - contradiction.
Qed.

(** X6: an answer whose body decodes to a JSON array cannot take the status
    code: the item assignment raises [TypeError] and nothing is returned. *)
Lemma array_body_raises (self : Requester) (method endpoint : string)
    (data params : option dict) (w : World) (i : nat) (r : Response)
    (items : list pyval) :
  let rq := make_request self method endpoint data params in
  let run := _async_request self method endpoint data params w in
  (network_calls w <= i < network_calls (snd run))%nat ->
  transport w i rq = Received r ->
  json r = Decoded (PList items) ->
  fst run = Raise (TypeError "list indices must be integers or slices, not str").
Proof.
  intros rq run Hi Hrecv Hbody.
  destruct (received_is_last self method endpoint data params w i r Hi Hrecv)
    as (_ & Hres & _).
  subst run. rewrite Hres. unfold normalize. now rewrite Hbody.
Qed.

(** C5: in every run of the executor, an exchange that is answered, with
    whatever status code, is the last exchange of the run, and the run ends
    with that response (decoded and merged with its status); every exchange
    that was followed by another one had failed in the transport. *)
Theorem response_ends_retry_loop (self : Requester) (method endpoint : string)
    (data params : option dict) (w : World) (i : nat) (r : Response) :
  let rq := make_request self method endpoint data params in
  let run := _async_request self method endpoint data params w in
  (network_calls w <= i < network_calls (snd run))%nat ->
  transport w i rq = Received r ->
  network_calls (snd run) = S i /\
  fst run = normalize (Some r) /\
  (forall j, (network_calls w <= j)%nat -> (S j < network_calls (snd run))%nat ->
     is_failure (transport w j rq) = true).
Proof.
  intros rq run Hi Hrecv.
  destruct (received_is_last self method endpoint data params w i r Hi Hrecv)
    as (Hlast & Hres & _).
  split; [exact Hlast|]. split; [exact Hres|].
  intros j Hj Hnext. subst run.
  destruct (async_request_shape self method endpoint data params w)
    as (res & evs & n & Hrun & Hcnt & Hpre & _). fold rq in Hpre.
  rewrite Hrun in Hnext. simpl snd in Hnext.
  rewrite network_calls_extend, Hcnt in Hnext.
  specialize (Hpre (j - network_calls w)%nat ltac:(lia)).
  now replace (network_calls w + (j - network_calls w))%nat with j in Hpre by lia.
Qed.

Lemma response_ends_retry_loop_witness :
  let self := sample_client 3 in
  let rq := make_request self "GET" "/abc" None None in
  let run := _async_request self "GET" "/abc" None None second_answers_404 in
  ((network_calls second_answers_404 <= 1 < network_calls (snd run))%nat /\
   transport second_answers_404 1 rq = Received (mkResponse 404 (Invalid NotJSON))) /\
  (network_calls (snd run) = 2%nat /\
   fst run = normalize (Some (mkResponse 404 (Invalid NotJSON))) /\
   (forall j, (network_calls second_answers_404 <= j)%nat ->
      (S j < network_calls (snd run))%nat ->
      is_failure (transport second_answers_404 j rq) = true)).
Proof.
  split.
  - vm_compute. repeat split; repeat constructor.
  - apply (response_ends_retry_loop (sample_client 3) "GET" "/abc" None None
             second_answers_404 1 (mkResponse 404 (Invalid NotJSON))).
    + vm_compute. repeat split; repeat constructor.
    + reflexivity.
Defined.




(** ** Construction of the client *)

(** X8: with an explicit, non-empty token the constructor succeeds whatever
    the ambient configuration is, leaves the world alone, and the header
    carries the token the client holds. *)
Lemma bearer_header_explicit_token (amb : Ambient) (token : string)
    (timeout_arg : Z) (sleep_time_arg : Q) (max_connection_retries : Z) (w : World) :
  token <> "" ->
  exists self,
    Requester_init amb (Some token) timeout_arg sleep_time_arg max_connection_retries w
      = (Ret self, w) /\
    auth_token self = token /\
    header (headers self) "Authorization" = Some ("Bearer " ++ auth_token self).
Proof.
  intros Hne. destruct token as [|c token]; [contradiction|].
  eexists. split; [reflexivity|]. split; reflexivity.
Qed.

(** Without an explicit token the header never carries the resolved one. *)
Lemma bearer_header_without_argument (amb : Ambient)
    (timeout_arg : Z) (sleep_time_arg : Q) (max_connection_retries : Z)
    (w w' : World) (self : Requester) :
  Requester_init amb None timeout_arg sleep_time_arg max_connection_retries w
    = (Ret self, w') ->
  header (headers self) "Authorization" = Some "Bearer None".
Proof.
  unfold Requester_init, bind, ret. intros H. simpl in H.
  destruct (get_auth_token amb w) as [[token| |] w1]; try discriminate.
  inversion H. reflexivity.
Qed.

(** C3: when the constructor gets no token and [get_auth_token] resolves
    [ghp_ambient] from the package global, the client holds that token but
    its [Authorization] header is ["Bearer None"], not ["Bearer "] followed
    by the resolved token: the header is formatted from the argument. *)
Theorem bearer_header_ignores_resolved_token :
  exists self,
    fst (Requester_init ambient_token None 5 (1 # 2) 2 always_timeout) = Ret self /\
    auth_token self = "ghp_ambient" /\
    header (headers self) "Authorization" = Some "Bearer None" /\
    header (headers self) "Authorization" <> Some ("Bearer " ++ auth_token self).
Proof.
  eexists. split; [reflexivity|]. repeat split. discriminate.
Qed.

(** ** Validation of the paginated operations *)

(** C6: each of [list_gists], [public_gists], [starred_gists],
    [gist_commits] and [gist_forks], called with a [per_page] that is not
    an [int] or is above 100, or with a [page] that is not an [int], raises
    [InvalidArg] and leaves the world as it was: no exchange is made. *)
Theorem paginated_rejects_bad_arguments (self : Requester) (op : paginated)
    (per_page page : pyval) (w : World) :
  isinstance_int per_page = false \/ 100 < int_value per_page \/
  isinstance_int page = false ->
  exists msg,
    call_paginated self op per_page page w = (Raise (InvalidArg msg), w) /\
    network_calls (snd (call_paginated self op per_page page w)) = network_calls w.
Proof.
  intros Hbad.
  assert (Hcase :
    negb (isinstance_int per_page) || (int_value per_page >? 100) = true \/
    (negb (isinstance_int per_page) || (int_value per_page >? 100) = false /\
     negb (isinstance_int page) = true)).
  { destruct (negb (isinstance_int per_page) || (int_value per_page >? 100)) eqn:E;
      [now left | right; split; [reflexivity|]].
    apply orb_false_iff in E. destruct E as [E1 E2].
    apply negb_false_iff in E1.
    destruct Hbad as [H|[H|H]]; [congruence | | now rewrite H].
    destruct (Z.gtb_spec (int_value per_page) 100); [discriminate | lia]. }
  destruct op; unfold call_paginated, list_gists, public_gists, starred_gists,
    gist_commits, gist_forks;
    (destruct Hcase as [-> | [-> ->]]; eexists; split; reflexivity).
Qed.

Lemma paginated_rejects_bad_arguments_witness :
  (isinstance_int (PStr "30") = false \/ 100 < int_value (PStr "30") \/
   isinstance_int (PInt 1) = false) /\
  exists msg,
    call_paginated (sample_client 2) (GistCommits (PStr "abc")) (PStr "30") (PInt 1)
      serves_gist = (Raise (InvalidArg msg), serves_gist) /\
    network_calls (snd (call_paginated (sample_client 2) (GistCommits (PStr "abc"))
                          (PStr "30") (PInt 1) serves_gist))
      = network_calls serves_gist.
Proof.
  split.
  - left. reflexivity.
  - apply (paginated_rejects_bad_arguments (sample_client 2) (GistCommits (PStr "abc"))
             (PStr "30") (PInt 1) serves_gist).
    left. reflexivity.
Defined.

(** C10: for arguments that pass validation, [public_gists] hands the
    executor the same call whatever [per_page], [page] and [since] are, a
    [GET] of [/public] without query parameters, and so does
    [starred_gists] with [/starred]: two calls that differ only in those
    arguments run identically. *)
Theorem pagination_arguments_not_sent (self : Requester)
    (per_page1 page1 since1 per_page2 page2 since2 : pyval) (w : World) :
  valid_page_args per_page1 page1 ->
  valid_page_args per_page2 page2 ->
  (public_gists self per_page1 page1 since1 w = _async_request self "GET" "/public" None None w /\
   public_gists self per_page1 page1 since1 w = public_gists self per_page2 page2 since2 w) /\
  (starred_gists self per_page1 page1 since1 w = _async_request self "GET" "/starred" None None w /\
   starred_gists self per_page1 page1 since1 w = starred_gists self per_page2 page2 since2 w).
Proof.
  intros (Hi1 & Hle1 & Hp1) (Hi2 & Hle2 & Hp2).
  unfold public_gists, starred_gists.
  rewrite Hi1, Hi2, Hp1, Hp2. simpl negb. simpl orb.
  destruct (Z.gtb_spec (int_value per_page1) 100); [lia|].
  destruct (Z.gtb_spec (int_value per_page2) 100); [lia|].
  repeat split.
Qed.

Lemma pagination_arguments_not_sent_witness :
  (valid_page_args (PInt 30) (PInt 1) /\ valid_page_args (PInt 100) (PInt 7)) /\
  (public_gists (sample_client 2) (PInt 30) (PInt 1) (PStr "") serves_gist
     = _async_request (sample_client 2) "GET" "/public" None None serves_gist /\
   public_gists (sample_client 2) (PInt 30) (PInt 1) (PStr "") serves_gist
     = public_gists (sample_client 2) (PInt 100) (PInt 7) (PStr "2024-01-01T00:00:00Z")
         serves_gist) /\
  (starred_gists (sample_client 2) (PInt 30) (PInt 1) (PStr "") serves_gist
     = _async_request (sample_client 2) "GET" "/starred" None None serves_gist /\
   starred_gists (sample_client 2) (PInt 30) (PInt 1) (PStr "") serves_gist
     = starred_gists (sample_client 2) (PInt 100) (PInt 7) (PStr "2024-01-01T00:00:00Z")
         serves_gist).
Proof.
  assert (V1 : valid_page_args (PInt 30) (PInt 1)).
  { unfold valid_page_args; simpl; repeat split; lia. }
  assert (V2 : valid_page_args (PInt 100) (PInt 7)).
  { unfold valid_page_args; simpl; repeat split; lia. }
  split; [split; assumption|].
  exact (pagination_arguments_not_sent (sample_client 2) (PInt 30) (PInt 1) (PStr "")
           (PInt 100) (PInt 7) (PStr "2024-01-01T00:00:00Z") serves_gist V1 V2).
Defined.

(** ** [create_gist] *)

(** Paths that name no file leave [file_data] and the world as they are. *)
Lemma read_files_none_exist (paths : list string) (file_data : dict) (w : World) :
  (forall p, In p paths -> file_at w p = None) ->
  read_files (map PStr paths) file_data w = (Ret file_data, w).
Proof.
  induction paths as [|p paths IH]; intros Hnone; [reflexivity|].
  simpl. unfold bind, os_path_isfile.
  rewrite (Hnone p (or_introl eq_refl)).
  apply IH. intros q Hq. apply Hnone. now right.
Qed.

(** C8: [create_gist] with a list of paths none of which is a file on disk
    raises [FileNotFoundError] and makes no exchange (the world is
    unchanged); a list with at least one path is the claim's case. *)
Theorem create_gist_no_existing_path (self : Requester) (paths : list string)
    (file_name : option string) (description : string) (public : bool) (w : World) :
  paths <> [] ->
  (forall p, In p paths -> file_at w p = None) ->
  create_gist self (PList (map PStr paths)) file_name description public w
    = (Raise (FileNotFoundError "Unable to locate the file(s)"), w) /\
  network_calls (snd (create_gist self (PList (map PStr paths)) file_name
                        description public w)) = network_calls w.
Proof.
  intros _ Hnone.
  assert (E : create_gist self (PList (map PStr paths)) file_name description public w
              = (Raise (FileNotFoundError "Unable to locate the file(s)"), w)).
  { unfold create_gist. simpl. unfold bind at 1. unfold ret at 1.
    unfold bind. now rewrite read_files_none_exist. }
  rewrite E. split; reflexivity.
Qed.

Lemma create_gist_no_existing_path_witness :
  (["notes.md"; "/tmp/missing.py"] <> [] /\
   (forall p, In p ["notes.md"; "/tmp/missing.py"] -> file_at serves_gist p = None)) /\
  create_gist (sample_client 2) (PList (map PStr ["notes.md"; "/tmp/missing.py"]))
    None "" false serves_gist
    = (Raise (FileNotFoundError "Unable to locate the file(s)"), serves_gist) /\
  network_calls (snd (create_gist (sample_client 2)
                        (PList (map PStr ["notes.md"; "/tmp/missing.py"]))
                        None "" false serves_gist)) = network_calls serves_gist.
Proof.
  split.
  - split; [discriminate | intros p _; reflexivity].
  - apply (create_gist_no_existing_path (sample_client 2) ["notes.md"; "/tmp/missing.py"]
             None "" false serves_gist).
    + discriminate.
    + intros p _. reflexivity.
Defined.

(** ** [update_gist] *)

(** The events of a run of the executor hold no request but its own. *)
Lemma async_request_events (self : Requester) (method endpoint : string)
    (data params : option dict) (w : World) :
  exists evs,
    snd (_async_request self method endpoint data params w) = extend w evs /\
    (0 <= retries self -> (0 < count_requests evs)%nat) /\
    forall rq, In (EvRequest rq) evs -> rq = make_request self method endpoint data params.
Proof.
  destruct (async_request_shape self method endpoint data params w)
    as (res & evs & n & -> & Hcnt & _ & Hpost).
  exists evs. split; [reflexivity|].
  assert (Hatt : forall k rq,
    In (EvRequest rq) (attempt_events (make_request self method endpoint data params)
                         (sleep_time self) k) ->
    rq = make_request self method endpoint data params).
  { induction k as [|k IH]; simpl; intros rq H; [contradiction|].
    destruct H as [H|[H|H]]; [now injection H | discriminate | now apply IH]. }
  destruct res as [[r|]|e|]; cbv beta iota delta [loop_post] in Hpost.
  - destruct Hpost as (k & -> & _ & ->).
    split; [intros _; rewrite Hcnt; lia | apply (Hatt (S k))].
  - destruct Hpost as (-> & -> & Hneg). split; [lia | intros rq []].
  - destruct Hpost as (k & -> & _ & -> & _). split; [intros _; rewrite Hcnt; lia|].
    intros rq Hin. apply in_app_or in Hin. destruct Hin as [Hin|[Hin|[]]];
      [now apply (Hatt k) | now injection Hin].
  - contradiction.
Qed.

(** Without [paste], [get_gist] is the executor's [GET] of the gist. *)
Lemma get_gist_plain (self : Requester) (gist_id : pyval) (w : World) :
  get_gist self gist_id false w
  = _async_request self "GET" ("/" ++ py_str gist_id) None None w.
Proof.
  unfold get_gist, bind. simpl negb. cbv iota.
  destruct (_async_request self "GET" ("/" ++ py_str gist_id) None None w)
    as [[gist|e|] w1]; reflexivity.
Qed.

(** [update_gist] starts with an exchange whatever [content] is: with a
    [content] that is not a string nothing happens after the fetch, and a
    client with [retries >= 0] has made an exchange by the time the call
    ends. *)
Lemma update_gist_fetches_first (self : Requester) (content gist_id : pyval)
    (filename_to_update description : string) (w : World) :
  0 <= retries self ->
  isinstance_str content = false ->
  (network_calls w <
   network_calls (snd (update_gist self content gist_id filename_to_update description w)))%nat.
Proof.
  intros Hr Hns.
  destruct (async_request_events self "GET" ("/" ++ py_str gist_id) None None w)
    as (evs & Hsnd & Hpos & _).
  rewrite <- get_gist_plain in Hsnd.
  assert (E : snd (update_gist self content gist_id filename_to_update description w)
              = extend w evs).
  { rewrite <- Hsnd. unfold update_gist. rewrite bind_run.
    destruct (get_gist self gist_id false w) as [[gist|e|] w1]; try reflexivity.
    destruct (Dict.get gist "files") as [files|]; [|reflexivity].
    rewrite bind_run. unfold py_in. rewrite Hns.
    destruct files; try reflexivity; unfold ret;
      match goal with |- context [negb ?b] => destruct b end; reflexivity. }
  rewrite E, network_calls_extend. specialize (Hpos Hr). lia.
Qed.

(** C4: [update_gist] with the integer 123 as [content], against a server
    that holds the gist with the file to update, raises [InvalidArg] only
    after the gist has been fetched: one exchange has been made, where the
    claim requires none, and [create_gist] checks [content] first. *)
Theorem update_gist_validates_after_fetch :
  fst (update_gist (sample_client 2) (PInt 123) (PStr "abc") "a.txt" "" serves_gist)
    = Raise (InvalidArg "content should be str or a file path") /\
  network_calls (snd (update_gist (sample_client 2) (PInt 123) (PStr "abc") "a.txt" ""
                        serves_gist)) = 1%nat /\
  network_calls serves_gist = 0%nat.
Proof. vm_compute. repeat split. Qed.

Lemma prefix_app (p s : string) : String.prefix p (p ++ s) = true.
Proof.
  induction p as [|c p IH]; simpl; [now destruct s|].
  destruct (ascii_dec c c) as [_|NE]; [exact IH | contradiction].
Qed.

Lemma contains_infix (a p b : string) : Str.contains (a ++ p ++ b) p = true.
Proof.
  assert (Hunfold : forall s, Str.contains s p
            = String.prefix p s || match s with
                                   | EmptyString => false
                                   | String _ s' => Str.contains s' p
                                   end).
  { intros []; reflexivity. }
  induction a as [|c a IH].
  - simpl String.append. now rewrite Hunfold, prefix_app.
  - change (String c a ++ p ++ b) with (String c (a ++ p ++ b)).
    rewrite Hunfold. cbv beta iota. rewrite IH. apply orb_true_r.
Qed.

(** C9, as stated, fails: against a server that answers 404 without a
    ["files"] key, [update_gist] of [a.txt] returns the mapping with the
    message ["files not found"], which does not name the file. *)
Lemma update_gist_without_files_message :
  fst (get_gist (sample_client 2) (PStr "abc") false serves_not_found)
    = Ret [("message", PStr "Not Found"); ("code", PInt 404)] /\
  fst (update_gist (sample_client 2) (PStr "print(1)") (PStr "abc") "a.txt" ""
         serves_not_found)
    = Ret [("message", PStr "files not found")] /\
  Str.contains "files not found" "a.txt" = false.
Proof. vm_compute. repeat split. Qed.

(** C9, amended: when the fetched gist has no ["files"] key, [update_gist]
    returns the mapping with the fixed message ["files not found"]; when it
    has a files mapping without the target file name, it returns a mapping
    whose message names that file.  Either way nothing is raised, and the
    call ends in the world the fetch left, whose new exchanges are all
    [GET]s: no [PATCH] is issued. *)
Theorem update_gist_soft_failure (self : Requester) (content gist_id : pyval)
    (filename_to_update description : string) (w w1 : World) (gist : dict) :
  get_gist self gist_id false w = (Ret gist, w1) ->
  (Dict.get gist "files" = None \/
   exists files, Dict.get gist "files" = Some (PDict files) /\
                 Dict.mem files filename_to_update = false) ->
  exists msg evs,
    update_gist self content gist_id filename_to_update description w
      = (Ret [("message", PStr msg)], w1) /\
    (Dict.get gist "files" = None -> msg = "files not found") /\
    (Dict.get gist "files" <> None ->
       msg = "File '" ++ filename_to_update ++ "' not found in the Gist." /\
       Str.contains msg filename_to_update = true) /\
    w1 = extend w evs /\ only_gets evs.
Proof.
  intros Hfetch Hmissing.
  destruct (async_request_events self "GET" ("/" ++ py_str gist_id) None None w)
    as (evs & Hsnd & _ & Hall).
  rewrite <- get_gist_plain, Hfetch in Hsnd. simpl in Hsnd.
  assert (Hgets : only_gets evs).
  { intros rq Hin. now rewrite (Hall rq Hin). }
  unfold update_gist. rewrite bind_run, Hfetch.
  destruct Hmissing as [Hnone | (files & Hfiles & Habsent)].
  - rewrite Hnone. exists "files not found", evs.
    split; [reflexivity|]. split; [reflexivity|].
    split; [intros Hsome; contradiction | split; assumption].
  - rewrite Hfiles. rewrite bind_run. unfold py_in, ret. rewrite Habsent. simpl negb.
    cbv iota.
    exists ("File '" ++ filename_to_update ++ "' not found in the Gist."), evs.
    split; [reflexivity|]. split; [intros Habs; discriminate|].
    split; [|split; assumption].
    intros _. split; [reflexivity | apply contains_infix].
Qed.

Lemma update_gist_soft_failure_witness :
  (get_gist (sample_client 2) (PStr "abc") false serves_gist
     = (Ret [ ("id", PStr "abc");
              ("files", PDict [("a.txt", PDict [("filename", PStr "a.txt");
                                                ("content", PStr "hello")])]);
              ("code", PInt 200) ],
        snd (get_gist (sample_client 2) (PStr "abc") false serves_gist)) /\
   (Dict.get [ ("id", PStr "abc");
               ("files", PDict [("a.txt", PDict [("filename", PStr "a.txt");
                                                 ("content", PStr "hello")])]);
               ("code", PInt 200) ] "files" = None \/
    exists files,
      Dict.get [ ("id", PStr "abc");
                 ("files", PDict [("a.txt", PDict [("filename", PStr "a.txt");
                                                   ("content", PStr "hello")])]);
                 ("code", PInt 200) ] "files" = Some (PDict files) /\
      Dict.mem files "b.txt" = false)) /\
  exists msg evs,
    update_gist (sample_client 2) (PStr "print(1)") (PStr "abc") "b.txt" "" serves_gist
      = (Ret [("message", PStr msg)],
         snd (get_gist (sample_client 2) (PStr "abc") false serves_gist)) /\
    (Dict.get [ ("id", PStr "abc");
                ("files", PDict [("a.txt", PDict [("filename", PStr "a.txt");
                                                  ("content", PStr "hello")])]);
                ("code", PInt 200) ] "files" = None -> msg = "files not found") /\
    (Dict.get [ ("id", PStr "abc");
                ("files", PDict [("a.txt", PDict [("filename", PStr "a.txt");
                                                  ("content", PStr "hello")])]);
                ("code", PInt 200) ] "files" <> None ->
       msg = "File '" ++ "b.txt" ++ "' not found in the Gist." /\
       Str.contains msg "b.txt" = true) /\
    snd (get_gist (sample_client 2) (PStr "abc") false serves_gist)
      = extend serves_gist evs /\ only_gets evs.
Proof.
  assert (Hfetch :
    get_gist (sample_client 2) (PStr "abc") false serves_gist
    = (Ret [ ("id", PStr "abc");
             ("files", PDict [("a.txt", PDict [("filename", PStr "a.txt");
                                               ("content", PStr "hello")])]);
             ("code", PInt 200) ],
       snd (get_gist (sample_client 2) (PStr "abc") false serves_gist))).
  { vm_compute. reflexivity. }
  assert (Hmissing :
    Dict.get [ ("id", PStr "abc");
               ("files", PDict [("a.txt", PDict [("filename", PStr "a.txt");
                                                 ("content", PStr "hello")])]);
               ("code", PInt 200) ] "files" = None \/
    exists files,
      Dict.get [ ("id", PStr "abc");
                 ("files", PDict [("a.txt", PDict [("filename", PStr "a.txt");
                                                   ("content", PStr "hello")])]);
                 ("code", PInt 200) ] "files" = Some (PDict files) /\
      Dict.mem files "b.txt" = false).
  { right. eexists. split; reflexivity. }
  split; [split; assumption|].
  exact (update_gist_soft_failure (sample_client 2) (PStr "print(1)") (PStr "abc")
           "b.txt" "" serves_gist _ _ Hfetch Hmissing).
Defined.

(** * Further properties of the executor *)

(** The loop never makes more exchanges than its budget allows. *)
Lemma loop_attempts_bound (self : Requester) (rq : Request) (fuel : nat) :
  forall (tries : Z) (w : World),
    (network_calls (snd (retry_loop fuel self rq tries None w))
     <= network_calls w + Z.to_nat (Z.max 1 (retries self - tries)))%nat.
Proof.
  induction fuel as [|fuel IH]; intros tries w; [simpl; lia|].
  destruct (Z.lt_ge_cases (retries self) tries) as [Hout|Hin].
  { rewrite loop_exit by assumption. simpl. lia. }
  rewrite loop_step by assumption.
  assert (Hone : forall evs, count_requests evs = 1%nat ->
            (network_calls (extend w evs)
             <= network_calls w + Z.to_nat (Z.max 1 (retries self - tries)))%nat).
  { intros evs Hc. rewrite network_calls_extend, Hc. lia. }
  assert (Hnext : tries + 1 < retries self ->
    (network_calls (snd (retry_loop fuel self rq (tries + 1) None
                           (extend w (attempt_events rq (sleep_time self) 1))))
     <= network_calls w + Z.to_nat (Z.max 1 (retries self - tries)))%nat).
  { intros Hlt.
    specialize (IH (tries + 1) (extend w (attempt_events rq (sleep_time self) 1))).
    rewrite network_calls_extend, count_attempt_events in IH. lia. }
  destruct (transport w (network_calls w) rq) as [r|e|e].
  - destruct fuel as [|fuel']; [|rewrite loop_done]; simpl snd;
      apply Hone, (count_attempt_events rq (sleep_time self) 1).
  - destruct (Z.geb_spec (tries + 1) (retries self)); [now apply Hone | apply Hnext; lia].
  - destruct (Z.geb_spec (tries + 1) (retries self)); [now apply Hone | apply Hnext; lia].
Qed.

(** X1: a client with [retries >= 0] makes at least one exchange per call
    and never more than [max 1 retries], whatever the transport does, and
    the call always ends. *)
Theorem attempts_bounded (self : Requester) (method endpoint : string)
    (data params : option dict) (w : World) :
  let run := _async_request self method endpoint data params w in
  0 <= retries self ->
  (network_calls w < network_calls (snd run)
   <= network_calls w + Z.to_nat (Z.max 1 (retries self)))%nat /\
  fst run <> Diverge.
Proof.
  intros run Hr. subst run. split; [split|].
  - destruct (async_request_shape self method endpoint data params w)
      as (res & evs & n & -> & Hcnt & _ & Hpost).
    simpl snd. rewrite network_calls_extend, Hcnt.
    destruct res as [[r|]|e|]; cbv beta iota delta [loop_post] in Hpost.
    + destruct Hpost as (k & -> & _). lia.
    + lia.
    + destruct Hpost as (k & -> & _). lia.
    + contradiction.
  - assert (Hb := loop_attempts_bound self
                    (make_request self method endpoint data params)
                    (loop_fuel self) 0 w).
    rewrite Z.sub_0_r in Hb.
    unfold _async_request. rewrite bind_run.
    destruct (retry_loop (loop_fuel self) self
                (make_request self method endpoint data params) 0 None w)
      as [[resp|e|] w1]; exact Hb.
  - destruct (async_request_shape self method endpoint data params w)
      as (res & evs & n & -> & _ & _ & Hpost).
    destruct res as [[r|]|e|]; simpl in *; try discriminate; try contradiction.
    destruct (json r) as [[]|[]]; discriminate.
Qed.

Lemma attempts_bounded_witness :
  0 <= retries (sample_client 3) /\
  (network_calls second_answers_404
   < network_calls (snd (_async_request (sample_client 3) "GET" "/abc" None None
                           second_answers_404))
   <= network_calls second_answers_404 + Z.to_nat (Z.max 1 (retries (sample_client 3))))%nat /\
  fst (_async_request (sample_client 3) "GET" "/abc" None None second_answers_404)
    <> Diverge.
Proof.
  split; [simpl; lia|].
  apply (attempts_bounded (sample_client 3) "GET" "/abc" None None second_answers_404).
  simpl; lia.
Defined.

(** X2: a client whose [retries] is negative makes no exchange at all: the
    loop body never runs, [resp] is still [None] and [resp.json()] raises
    [AttributeError]. *)
Theorem negative_retries_no_exchange (self : Requester) (method endpoint : string)
    (data params : option dict) (w : World) :
  retries self < 0 ->
  _async_request self method endpoint data params w
  = (Raise (AttributeError "'NoneType' object has no attribute 'json'"), w).
Proof.
  intros Hneg. unfold _async_request, loop_fuel. rewrite bind_run.
  replace (Z.to_nat (retries self) + 2)%nat with (S (S (Z.to_nat (retries self)))) by lia.
  rewrite loop_exit by lia. reflexivity.
Qed.

Lemma negative_retries_no_exchange_witness :
  retries (sample_client (-1)) < 0 /\
  _async_request (sample_client (-1)) "GET" "" None None serves_gist
  = (Raise (AttributeError "'NoneType' object has no attribute 'json'"), serves_gist).
Proof.
  split; [simpl; lia|].
  apply (negative_retries_no_exchange (sample_client (-1)) "GET" "" None None serves_gist).
  simpl; lia.
Defined.

(** Where an exception of the executor comes from. *)
Lemma executor_raise_cases (self : Requester) (method endpoint : string)
    (data params : option dict) (w : World) (e : exn) :
  fst (_async_request self method endpoint data params w) = Raise e ->
  (exists m, e = TimeoutException ("Timeout error: " ++ m)) \/
  (exists m, e = UnExpectedError ("An Unexpected error occurred: " ++ m)) \/
  (exists m, e = TypeError m) \/
  (exists m, e = UnicodeDecodeError m) \/
  (exists m, e = RecursionError m) \/
  (retries self < 0 /\ e = AttributeError "'NoneType' object has no attribute 'json'").
Proof.
  destruct (async_request_shape self method endpoint data params w)
    as (res & evs & n & -> & _ & _ & Hpost).
  simpl fst. destruct res as [[r|]|e'|]; cbv beta iota delta [loop_post] in Hpost;
    simpl after_loop.
  - unfold normalize. destruct (json r) as [[]|[]]; intros H; try discriminate;
      injection H as <-;
      solve [ right; right; left; eexists; reflexivity
            | right; right; right; left; eexists; reflexivity
            | right; right; right; right; left; eexists; reflexivity ].
  - destruct Hpost as (_ & _ & Hneg). unfold normalize. intros H. injection H as <-.
    right; right; right; right; right. split; [exact Hneg | reflexivity].
  - destruct Hpost as (k & _ & Hby & _). intros H. injection H as <-.
    destruct (transport w (network_calls w + k)
                (make_request self method endpoint data params)) as [r|m|m];
      simpl in Hby; [contradiction | left | right; left]; exists m; exact Hby.
  - contradiction.
Qed.



Lemma all_fail_attempts_witness :
  (0 <= retries (sample_client 3) /\
   (forall i, is_failure (transport always_timeout i
                            (make_request (sample_client 3) "GET" "" None None)) = true)) /\
  exists e,
    fst (_async_request (sample_client 3) "GET" "" None None always_timeout) = Raise e /\
    raised_by (transport always_timeout
                 (network_calls (snd (_async_request (sample_client 3) "GET" "" None None
                                        always_timeout)) - 1)
                 (make_request (sample_client 3) "GET" "" None None)) e /\
    network_calls (snd (_async_request (sample_client 3) "GET" "" None None always_timeout))
    = (network_calls always_timeout + Z.to_nat (Z.max 1 (retries (sample_client 3))))%nat.
Proof.
  assert (Hr : 0 <= retries (sample_client 3)) by (simpl; lia).
  assert (Hf : forall i, is_failure (transport always_timeout i
                 (make_request (sample_client 3) "GET" "" None None)) = true)
    by (intros i; reflexivity).
  split; [split; assumption|].
  exact (all_fail_attempts (sample_client 3) "GET" "" None None always_timeout Hr Hf).
Defined.

(** X5: when the answer's body decodes to a mapping, the executor returns
    that mapping with ["code"] set to the status code, replacing a ["code"]
    the body had, and with every other key as the body had it. *)
Theorem merge_keeps_other_keys (self : Requester) (method endpoint : string)
    (data params : option dict) (w : World) (i : nat) (r : Response) (body : dict) :
  let rq := make_request self method endpoint data params in
  let run := _async_request self method endpoint data params w in
  (network_calls w <= i < network_calls (snd run))%nat ->
  transport w i rq = Received r ->
  json r = Decoded (PDict body) ->
  exists d,
    fst run = Ret d /\
    Dict.get d "code" = Some (PInt (status_code r)) /\
    forall k, k <> "code" -> Dict.get d k = Dict.get body k.
Proof.
  intros rq run Hi Hrecv Hbody.
  destruct (received_is_last self method endpoint data params w i r Hi Hrecv)
    as (_ & Hres & _).
  subst run. rewrite Hres. unfold normalize. rewrite Hbody.
  eexists. split; [reflexivity|]. split.
  - apply Dict_get_set_same.
  - intros k Hk. apply Dict_get_set_other. congruence.
Qed.

Lemma merge_keeps_other_keys_witness :
  ((network_calls serves_body_with_code <= 0
    < network_calls (snd (_async_request (sample_client 2) "POST" "" None None
                            serves_body_with_code)))%nat /\
   transport serves_body_with_code 0 (make_request (sample_client 2) "POST" "" None None)
     = Received (mkResponse 201 (Decoded (PDict [("code", PStr "abc"); ("id", PStr "x")]))) /\
   json (mkResponse 201 (Decoded (PDict [("code", PStr "abc"); ("id", PStr "x")])))
     = Decoded (PDict [("code", PStr "abc"); ("id", PStr "x")])) /\
  exists d,
    fst (_async_request (sample_client 2) "POST" "" None None serves_body_with_code) = Ret d /\
    Dict.get d "code" = Some (PInt 201) /\
    forall k, k <> "code" ->
      Dict.get d k = Dict.get [("code", PStr "abc"); ("id", PStr "x")] k.
Proof.
  assert (Hi : (network_calls serves_body_with_code <= 0
    < network_calls (snd (_async_request (sample_client 2) "POST" "" None None
                            serves_body_with_code)))%nat).
  { vm_compute. repeat split; repeat constructor. }
  split; [split; [exact Hi | split; reflexivity]|].
  exact (merge_keeps_other_keys (sample_client 2) "POST" "" None None serves_body_with_code
           0 _ _ Hi eq_refl eq_refl).
Defined.

Lemma array_body_raises_witness :
  ((network_calls serves_array <= 0
    < network_calls (snd (_async_request (sample_client 2) "GET" "" None None
                            serves_array)))%nat /\
   transport serves_array 0 (make_request (sample_client 2) "GET" "" None None)
     = Received (mkResponse 200 (Decoded (PList []))) /\
   json (mkResponse 200 (Decoded (PList []))) = Decoded (PList [])) /\
  fst (_async_request (sample_client 2) "GET" "" None None serves_array)
    = Raise (TypeError "list indices must be integers or slices, not str").
Proof.
  assert (Hi : (network_calls serves_array <= 0
    < network_calls (snd (_async_request (sample_client 2) "GET" "" None None
                            serves_array)))%nat).
  { vm_compute. repeat split; repeat constructor. }
  split; [split; [exact Hi | split; reflexivity]|].
  exact (array_body_raises (sample_client 2) "GET" "" None None serves_array
           0 _ [] Hi eq_refl eq_refl).
Defined.

(** X7: all a call of the executor does to the world is append events:
    exchanges, each with the call's method, the URL [API_URL + endpoint],
    the call's body and parameters and the client's headers and timeout,
    and sleeps of the client's [sleep_time]; the paste service is not
    contacted. *)
Theorem executor_events (self : Requester) (method endpoint : string)
    (data params : option dict) (w : World) :
  exists evs,
    snd (_async_request self method endpoint data params w) = extend w evs /\
    forall ev, In ev evs ->
      ev = EvRequest (mkRequest method (API_URL ++ endpoint) data params
                        (headers self) (timeout self)) \/
      ev = EvSleep (sleep_time self).
Proof.
  destruct (async_request_shape self method endpoint data params w)
    as (res & evs & n & -> & _ & _ & Hpost).
  exists evs. split; [reflexivity|].
  fold (make_request self method endpoint data params).
  assert (Hatt : forall k ev,
    In ev (attempt_events (make_request self method endpoint data params)
             (sleep_time self) k) ->
    ev = EvRequest (make_request self method endpoint data params) \/
    ev = EvSleep (sleep_time self)).
  { induction k as [|k IH]; simpl; intros ev H; [contradiction|].
    destruct H as [H|[H|H]]; [now left | now right | now apply IH]. }
  destruct res as [[r|]|e|]; cbv beta iota delta [loop_post] in Hpost.
  - destruct Hpost as (k & _ & _ & ->). apply (Hatt (S k)).
  - destruct Hpost as (_ & -> & _). intros ev [].
  - destruct Hpost as (k & _ & _ & -> & _). intros ev Hin.
    apply in_app_or in Hin. destruct Hin as [Hin|[Hin|[]]];
      [now apply (Hatt k) | now left].
  - contradiction.
Qed.

(** * Further properties of the credential and the constructor *)

Lemma bearer_header_explicit_token_witness :
  "ghp_s3cr3t" <> "" /\
  exists self,
    Requester_init ambient_none (Some "ghp_s3cr3t") 5 (1 # 2) 2 serves_gist
      = (Ret self, serves_gist) /\
    auth_token self = "ghp_s3cr3t" /\
    header (headers self) "Authorization" = Some ("Bearer " ++ auth_token self).
Proof.
  split; [discriminate|].
  apply (bearer_header_explicit_token ambient_none "ghp_s3cr3t" 5 (1 # 2) 2 serves_gist).
  discriminate.
Defined.

(** X9: when a token file is configured and reading it yields a text
    that, stripped of white space, starts with [ghp_], [get_auth_token]
    returns that text stripped, whatever the package token is: the file
    takes precedence. *)
Theorem token_file_takes_precedence (amb : Ambient) (w : World) (path text : string) :
  pkg_auth_token_path amb = Some path ->
  path <> "" ->
  open_read w path = ReadText text ->
  Str.startswith (Str.strip text) "ghp_" = true ->
  get_auth_token amb w = (Ret (Str.strip text), w).
Proof.
  intros Hpath Hne Hfile Hprefix. unfold get_auth_token. rewrite Hpath.
  destruct path as [|c path]; [contradiction|].
  change (truthy (Some (String c path))) with true. cbv iota.
  rewrite bind_run. unfold read_file. rewrite Hfile, Hprefix. reflexivity.
Qed.

Lemma token_file_takes_precedence_witness :
  (pkg_auth_token_path ambient_both = Some "/run/secrets/gist" /\
   "/run/secrets/gist" <> "" /\
   open_read with_disk "/run/secrets/gist"
     = ReadText (nbsp ++ " ghp_fromfile" ++ nbsp ++ String (ascii_of_nat 10) "") /\
   Str.startswith
     (Str.strip (nbsp ++ " ghp_fromfile" ++ nbsp ++ String (ascii_of_nat 10) "")) "ghp_"
     = true) /\
  get_auth_token ambient_both with_disk = (Ret "ghp_fromfile", with_disk).
Proof.
  split; [repeat split; discriminate|].
  apply (token_file_takes_precedence ambient_both with_disk "/run/secrets/gist"
           (nbsp ++ " ghp_fromfile" ++ nbsp ++ String (ascii_of_nat 10) ""));
    [reflexivity | discriminate | reflexivity | reflexivity].
Defined.

(** X10: when a token file is configured, [get_auth_token] does not fall
    back on the package token: if opening or reading the file raises, that
    exception is raised, and if the text read, stripped, lacks the [ghp_]
    prefix, [ValueError] is raised. *)
Theorem token_file_no_fallback (amb : Ambient) (w : World) (path : string) :
  pkg_auth_token_path amb = Some path ->
  path <> "" ->
  (forall e, open_read w path = ReadFails e -> get_auth_token amb w = (Raise e, w)) /\
  (forall text,
     open_read w path = ReadText text ->
     Str.startswith (Str.strip text) "ghp_" = false ->
     get_auth_token amb w = (Raise (ValueError "Invalid Token Format"), w)).
Proof.
  intros Hpath Hne. unfold get_auth_token. rewrite Hpath.
  destruct path as [|c path]; [contradiction|].
  change (truthy (Some (String c path))) with true. cbv iota.
  rewrite bind_run. unfold read_file. split.
  - intros e ->. reflexivity.
  - intros text -> ->. reflexivity.
Qed.

Lemma token_file_no_fallback_witness :
  (pkg_auth_token_path ambient_directory = Some "/run/secrets" /\
   "/run/secrets" <> "") /\
  (forall e, open_read odd_disk "/run/secrets" = ReadFails e ->
     get_auth_token ambient_directory odd_disk = (Raise e, odd_disk)) /\
  (forall text,
     open_read odd_disk "/run/secrets" = ReadText text ->
     Str.startswith (Str.strip text) "ghp_" = false ->
     get_auth_token ambient_directory odd_disk
     = (Raise (ValueError "Invalid Token Format"), odd_disk)).
Proof.
  split; [split; [reflexivity | discriminate]|].
  apply (token_file_no_fallback ambient_directory odd_disk "/run/secrets");
    [reflexivity | discriminate].
Defined.

(** X11: without a token file, [get_auth_token] returns the package token
    as it is, with no check of its format, and raises [AuthenticationError]
    when that token is unset or empty; an unset and an empty file path
    both count as no token file. *)
Theorem token_from_package (amb : Ambient) (w : World) :
  truthy (pkg_auth_token_path amb) = false ->
  (forall token, pkg_auth_token amb = Some token -> token <> "" ->
     get_auth_token amb w = (Ret token, w)) /\
  (truthy (pkg_auth_token amb) = false ->
     exists msg, get_auth_token amb w = (Raise (AuthenticationError msg), w)).
Proof.
  intros Hnopath. unfold get_auth_token. rewrite Hnopath. split.
  - intros token -> Hne. destruct token; [contradiction | reflexivity].
  - intros ->. eexists. reflexivity.
Qed.

Lemma token_from_package_witness :
  truthy (pkg_auth_token_path ambient_token) = false /\
  (forall token, pkg_auth_token ambient_token = Some token -> token <> "" ->
     get_auth_token ambient_token serves_gist = (Ret token, serves_gist)) /\
  (truthy (pkg_auth_token ambient_token) = false ->
     exists msg,
       get_auth_token ambient_token serves_gist = (Raise (AuthenticationError msg), serves_gist)).
Proof.
  split; [reflexivity|].
  apply (token_from_package ambient_token serves_gist). reflexivity.
Defined.

(** X12: constructing a client never changes the world, so it makes no
    exchange; and when the constructor is given no token, or an empty one,
    it ends as [get_auth_token] does: with a client holding the resolved
    token, or with the same exception. *)
Theorem construction_resolves_once (amb : Ambient) (auth_token_arg : option string)
    (timeout_arg : Z) (sleep_time_arg : Q) (max_connection_retries : Z) (w : World) :
  snd (Requester_init amb auth_token_arg timeout_arg sleep_time_arg
         max_connection_retries w) = w /\
  (truthy auth_token_arg = false ->
   match get_auth_token amb w with
   | (Ret token, _) =>
       exists self,
         fst (Requester_init amb auth_token_arg timeout_arg sleep_time_arg
                max_connection_retries w) = Ret self /\
         auth_token self = token /\ timeout self = timeout_arg /\
         sleep_time self = sleep_time_arg /\ retries self = max_connection_retries
   | (Raise e, _) =>
       fst (Requester_init amb auth_token_arg timeout_arg sleep_time_arg
              max_connection_retries w) = Raise e
   | (Diverge, _) => False
   end).
Proof.
  assert (Hget : snd (get_auth_token amb w) = w /\ fst (get_auth_token amb w) <> Diverge).
  { unfold get_auth_token.
    destruct (truthy (pkg_auth_token_path amb)).
    - rewrite bind_run. unfold read_file.
      destruct (open_read w _) as [text|e]; [|split; [reflexivity | discriminate]].
      destruct (negb (Str.startswith (Str.strip text) "ghp_"));
        (split; [reflexivity | discriminate]).
    - destruct (truthy (pkg_auth_token amb)); (split; [reflexivity | discriminate]). }
  unfold Requester_init. rewrite bind_run.
  destruct (truthy auth_token_arg).
  { split; [reflexivity | discriminate]. }
  destruct (get_auth_token amb w) as [r w']. simpl in Hget. destruct Hget as [-> Hnd].
  split.
  - destruct r; reflexivity.
  - intros _. destruct r as [token|e|].
    + eexists. split; [reflexivity|]. repeat split.
    + reflexivity.
    + now apply Hnd.
Qed.

Lemma construction_resolves_once_witness :
  snd (Requester_init ambient_both (Some "") 5 (1 # 2) 2 with_disk) = with_disk /\
  (truthy (Some "") = false ->
   match get_auth_token ambient_both with_disk with
   | (Ret token, _) =>
       exists self,
         fst (Requester_init ambient_both (Some "") 5 (1 # 2) 2 with_disk) = Ret self /\
         auth_token self = token /\ timeout self = 5 /\
         sleep_time self = (1 # 2) /\ retries self = 2
   | (Raise e, _) =>
       fst (Requester_init ambient_both (Some "") 5 (1 # 2) 2 with_disk) = Raise e
   | (Diverge, _) => False
   end).
Proof.
  exact (construction_resolves_once ambient_both (Some "") 5 (1 # 2) 2 with_disk).
Defined.

(** * Further properties of [create_gist] *)

Lemma Dict_mem_set (d : dict) (k k' : string) (v : pyval) :
  Dict.mem (Dict.set d k v) k' = String.eqb k k' || Dict.mem d k'.
Proof.
  unfold Dict.mem. destruct (String.eqb_spec k k') as [<-|Hne].
  - now rewrite Dict_get_set_same.
  - now rewrite Dict_get_set_other.
Qed.

(** What the loop over a list of path strings, whose files can all be
    read, leaves in [file_data]: the world is untouched, nothing is raised,
    and the entries are those of the start plus one per path that is a
    file, under its base name, holding its stripped text. *)
Lemma read_files_paths (w : World) (paths : list string) :
  (forall p e, In p paths -> file_at w p <> Some (ReadFails e)) ->
  forall file_data : dict,
  exists out,
    read_files (map PStr paths) file_data w = (Ret out, w) /\
    (forall name, Dict.mem out name = true <->
       Dict.mem file_data name = true \/
       exists p text, In p paths /\ file_at w p = Some (ReadText text) /\
                      Str.basename p = name) /\
    (forall name v, Dict.get out name = Some v ->
       Dict.get file_data name = Some v \/
       exists p text, In p paths /\ file_at w p = Some (ReadText text) /\
                      Str.basename p = name /\
                      v = PDict [("content", PStr (Str.strip text))]).
Proof.
  induction paths as [|p paths IH]; intros Hreadable file_data.
  - exists file_data. split; [reflexivity|]. split.
    + intros name. split; [now left|]. intros [H|(q & t & [] & _)]. exact H.
    + intros name v H. now left.
  - assert (Hrest : forall q e, In q paths -> file_at w q <> Some (ReadFails e)).
    { intros q e Hq. apply Hreadable. now right. }
    specialize (IH Hrest).
    simpl map. simpl read_files. rewrite bind_run. unfold os_path_isfile.
    destruct (file_at w p) as [[text|e]|] eqn:Hfile.
    + rewrite bind_run. unfold read_file, open_read. rewrite Hfile.
      destruct (IH (Dict.set file_data (Str.basename p)
                      (PDict [("content", PStr (Str.strip text))])))
        as (out & Hrun & Hkeys & Hvals).
      exists out. split; [exact Hrun|]. split.
      * intros name. rewrite Hkeys, Dict_mem_set. split.
        -- intros [H|(q & t & Hin & Hq & Hb)].
           ++ apply orb_true_iff in H. destruct H as [H|H]; [|now left].
              apply String.eqb_eq in H. right. exists p, text. repeat split; auto. now left.
           ++ right. exists q, t. repeat split; auto. now right.
        -- intros [H|(q & t & [<-|Hin] & Hq & Hb)].
           ++ left. rewrite H. apply orb_true_r.
           ++ left. rewrite Hb, String.eqb_refl. reflexivity.
           ++ right. exists q, t. repeat split; auto.
      * intros name v H. destruct (Hvals name v H) as [H'|(q & t & Hin & Hq & Hb & Hv)].
        -- destruct (String.eqb_spec (Str.basename p) name) as [E|NE].
           ++ rewrite E, Dict_get_set_same in H'. injection H' as <-.
              right. exists p, text. repeat split; auto. now left.
           ++ rewrite Dict_get_set_other in H' by assumption. now left.
        -- right. exists q, t. repeat split; auto. now right.
    + exfalso. apply (Hreadable p e); [now left | exact Hfile].
    + destruct (IH file_data) as (out & Hrun & Hkeys & Hvals).
      exists out. split; [exact Hrun|]. split.
      * intros name. rewrite Hkeys. split.
        -- intros [H|(q & t & Hin & Hq & Hb)]; [now left|].
           right. exists q, t. repeat split; auto. now right.
        -- intros [H|(q & t & [<-|Hin] & Hq & Hb)]; [now left | congruence |].
           right. exists q, t. repeat split; auto.
      * intros name v H. destruct (Hvals name v H) as [H'|(q & t & Hin & Hq & Hb & Hv)];
          [now left|].
        right. exists q, t. repeat split; auto. now right.
Qed.

(** X13: [create_gist] with a [content] that is neither a string nor a
    list raises [InvalidArg] without touching the disk or the network. *)
Theorem create_gist_rejects_other_content (self : Requester) (content : pyval)
    (file_name : option string) (description : string) (public : bool) (w : World) :
  isinstance_str content = false ->
  isinstance_list content = false ->
  create_gist self content file_name description public w
  = (Raise (InvalidArg "content should be str, list of file paths, or a single file path"), w).
Proof. intros Hs Hl. unfold create_gist. rewrite Hs, Hl. reflexivity. Qed.

Lemma create_gist_rejects_other_content_witness :
  (isinstance_str (PInt 7) = false /\ isinstance_list (PInt 7) = false) /\
  create_gist (sample_client 2) (PInt 7) None "" false with_disk
  = (Raise (InvalidArg "content should be str, list of file paths, or a single file path"),
     with_disk).
Proof.
  split; [split; reflexivity|].
  apply (create_gist_rejects_other_content (sample_client 2) (PInt 7) None "" false with_disk);
    reflexivity.
Defined.

(** X14: [create_gist] with a string that is the path of a file whose
    text can be read posts one file, named by the path's base name and
    holding the file's text stripped of white space; [file_name] is not
    used. *)
Theorem create_gist_from_path (self : Requester) (path text : string)
    (file_name : option string) (description : string) (public : bool) (w : World) :
  file_at w path = Some (ReadText text) ->
  create_gist self (PStr path) file_name description public w
  = _async_request self "POST" ""
      (Some [ ("description", PStr description); ("public", PBool public);
              ("files", PDict [(Str.basename path,
                                PDict [("content", PStr (Str.strip text))])]) ])
      None w.
Proof.
  intros Hfile. unfold create_gist. cbn [isinstance_str isinstance_list orb negb].
  rewrite bind_run. unfold os_path_isfile at 1. rewrite Hfile. cbv beta iota.
  rewrite bind_run. cbn [read_files]. rewrite bind_run.
  unfold os_path_isfile. rewrite Hfile. cbv beta iota.
  rewrite bind_run. unfold read_file, open_read. rewrite Hfile.
  reflexivity.
Qed.

Lemma create_gist_from_path_witness :
  file_at with_disk "src/hello.py"
    = Some (ReadText (nbsp ++ "print('hello')" ++ String (ascii_of_nat 10) nbsp)) /\
  create_gist (sample_client 2) (PStr "src/hello.py") (Some "ignored.txt") "demo" true with_disk
  = _async_request (sample_client 2) "POST" ""
      (Some [ ("description", PStr "demo"); ("public", PBool true);
              ("files", PDict [("hello.py", PDict [("content", PStr "print('hello')")])]) ])
      None with_disk.
Proof.
  split; [reflexivity|].
  exact (create_gist_from_path (sample_client 2) "src/hello.py"
           (nbsp ++ "print('hello')" ++ String (ascii_of_nat 10) nbsp)
           (Some "ignored.txt") "demo" true with_disk eq_refl).
Defined.

(** X15: [create_gist] with a list of paths whose files can all be read,
    and of which at least one is a file, posts a files mapping whose keys
    are exactly the base names of the listed paths that are files, each
    entry holding the stripped text of such a path; listed paths that are
    no files are skipped silently. *)
Theorem create_gist_list_skips_missing (self : Requester) (paths : list string)
    (file_name : option string) (description : string) (public : bool) (w : World)
    (p0 text0 : string) :
  (forall p e, In p paths -> file_at w p <> Some (ReadFails e)) ->
  In p0 paths ->
  file_at w p0 = Some (ReadText text0) ->
  exists file_data,
    create_gist self (PList (map PStr paths)) file_name description public w
    = _async_request self "POST" ""
        (Some [ ("description", PStr description); ("public", PBool public);
                ("files", PDict file_data) ]) None w /\
    (forall name, Dict.mem file_data name = true <->
       exists p text, In p paths /\ file_at w p = Some (ReadText text) /\
                      Str.basename p = name) /\
    (forall name v, Dict.get file_data name = Some v ->
       exists p text, In p paths /\ file_at w p = Some (ReadText text) /\
                      Str.basename p = name /\
                      v = PDict [("content", PStr (Str.strip text))]).
Proof.
  intros Hreadable Hin Hfile.
  destruct (read_files_paths w paths Hreadable []) as (out & Hrun & Hkeys & Hvals).
  exists out. split; [|split].
  - unfold create_gist. cbn [isinstance_str isinstance_list orb negb].
    rewrite bind_run. unfold ret at 1. cbv beta iota.
    rewrite bind_run, Hrun.
    destruct out as [|entry out]; [|reflexivity].
    assert (H : Dict.mem [] (Str.basename p0) = true).
    { apply Hkeys. right. exists p0, text0. auto. }
    discriminate.
  - intros name. rewrite Hkeys. split; [|now right].
    intros [H|H]; [discriminate | exact H].
  - intros name v H. destruct (Hvals name v H) as [H'|H']; [discriminate | exact H'].
Qed.

Lemma create_gist_list_skips_missing_witness :
  ((forall p e, In p ["missing.txt"; "src/hello.py"] ->
      file_at with_disk p <> Some (ReadFails e)) /\
   In "src/hello.py" ["missing.txt"; "src/hello.py"] /\
   file_at with_disk "src/hello.py"
     = Some (ReadText (nbsp ++ "print('hello')" ++ String (ascii_of_nat 10) nbsp))) /\
  exists file_data,
    create_gist (sample_client 2) (PList (map PStr ["missing.txt"; "src/hello.py"]))
      None "" false with_disk
    = _async_request (sample_client 2) "POST" ""
        (Some [ ("description", PStr ""); ("public", PBool false);
                ("files", PDict file_data) ]) None with_disk /\
    (forall name, Dict.mem file_data name = true <->
       exists p text, In p ["missing.txt"; "src/hello.py"] /\
                      file_at with_disk p = Some (ReadText text) /\
                      Str.basename p = name) /\
    (forall name v, Dict.get file_data name = Some v ->
       exists p text, In p ["missing.txt"; "src/hello.py"] /\
                      file_at with_disk p = Some (ReadText text) /\
                      Str.basename p = name /\
                      v = PDict [("content", PStr (Str.strip text))]).
Proof.
  assert (Hreadable : forall p e, In p ["missing.txt"; "src/hello.py"] ->
            file_at with_disk p <> Some (ReadFails e)).
  { intros p e [<-|[<-|[]]]; discriminate. }
  assert (Hin : In "src/hello.py" ["missing.txt"; "src/hello.py"]) by (right; left; reflexivity).
  split; [split; [exact Hreadable | split; [exact Hin | reflexivity]]|].
  exact (create_gist_list_skips_missing (sample_client 2) ["missing.txt"; "src/hello.py"]
           None "" false with_disk "src/hello.py" _ Hreadable Hin eq_refl).
Defined.

(** X16: [create_gist] with a string that is not the path of a file posts
    that string, as it is, as the content of one file, named [file_name],
    or [untitled.txt] when [file_name] is [None] or empty. *)
Theorem create_gist_inline (self : Requester) (content : string)
    (file_name : option string) (description : string) (public : bool) (w : World) :
  file_at w content = None ->
  create_gist self (PStr content) file_name description public w
  = _async_request self "POST" ""
      (Some [ ("description", PStr description); ("public", PBool public);
              ("files", PDict [(match file_name with
                                | Some (String c n) => String c n
                                | _ => "untitled.txt"
                                end, PDict [("content", PStr content)])]) ])
      None w.
Proof.
  intros Hfile. unfold create_gist. cbn [isinstance_str isinstance_list orb negb].
  rewrite bind_run. unfold os_path_isfile. rewrite Hfile. cbv beta iota.
  destruct file_name as [[|c n]|]; reflexivity.
Qed.

Lemma create_gist_inline_witness :
  file_at with_disk "print(1)" = None /\
  create_gist (sample_client 2) (PStr "print(1)") (Some "") "" false with_disk
  = _async_request (sample_client 2) "POST" ""
      (Some [ ("description", PStr ""); ("public", PBool false);
              ("files", PDict [("untitled.txt", PDict [("content", PStr "print(1)")])]) ])
      None with_disk.
Proof.
  split; [reflexivity|].
  exact (create_gist_inline (sample_client 2) "print(1)" (Some "") "" false with_disk eq_refl).
Defined.

(** * Further properties of [get_gist] and [paste_content] *)

Lemma append_assoc (a b c : string) : (a ++ b) ++ c = a ++ (b ++ c).
Proof. induction a as [|x a IH]; simpl; [reflexivity | now rewrite IH]. Qed.

Lemma frame_files_cons (key : string) (codes : pyval) (rest : list (string * pyval))
    (content : string) :
  frame_files ((key, codes) :: rest) content
  = (fname <- getitem codes "filename" ;;
     body <- getitem codes "content" ;;
     match body with
     | PStr text =>
         fname' <- getitem codes "filename" ;;
         frame_files rest
           (((content ++ "-----" ++ py_str fname ++ "-----" ++ newline) ++ text)
              ++ "-----" ++ py_str fname' ++ "-----" ++ newline ++ newline)
     | _ => raise (TypeError "can only concatenate str to str")
     end).
Proof. reflexivity. Qed.

(** Well-formed files are framed one after the other, in order. *)
Lemma frame_files_well_formed (w : World) (items : list (string * pyval))
    (files : list (pyval * string)) :
  Forall2 file_entry items files ->
  forall content,
    frame_files items content w = (Ret (content ++ framed_all files), w).
Proof.
  induction 1 as [|[key codes] [fname text] items files Hentry _ IH]; intros content.
  - simpl. unfold ret. f_equal. f_equal.
    induction content as [|c content IHc]; simpl; [reflexivity | now rewrite <- IHc].
  - destruct Hentry as (d & Hcodes & Hname & Htext). simpl in Hcodes, Hname, Htext.
    subst codes. rewrite frame_files_cons.
    rewrite bind_run. unfold getitem at 1. rewrite Hname. unfold ret at 1. cbv beta iota.
    rewrite bind_run. unfold getitem at 1. rewrite Htext. unfold ret at 1. cbv beta iota.
    rewrite bind_run. unfold getitem at 1. rewrite Hname. unfold ret at 1. cbv beta iota.
    rewrite IH. f_equal. f_equal.
    cbn [framed_all]. unfold framed. now rewrite !append_assoc.
Qed.

(** X17: [get_gist] with [paste] fetches the gist as without it, then
    pastes the files' contents, each framed by banners naming the file, in
    the gist's order (the empty text when the gist has no ["files"]), and
    returns the gist with the paste's URL or error text under
    ["pasted_url"]; the paste service is contacted exactly once, after the
    fetch. *)
Theorem get_gist_paste (self : Requester) (gist_id : pyval) (w w1 : World)
    (gist : dict) (files : list (pyval * string)) :
  get_gist self gist_id false w = (Ret gist, w1) ->
  (Dict.get gist "files" = None /\ files = [] \/
   exists items, Dict.get gist "files" = Some (PDict items) /\
                 Forall2 file_entry items files) ->
  get_gist self gist_id true w
  = match paste_content (framed_all files) w1 with
    | (Ret url, w2) => (Ret (Dict.set gist "pasted_url" (PStr url)), w2)
    | (Raise e, w2) => (Raise e, w2)
    | (Diverge, w2) => (Diverge, w2)
    end.
Proof.
  intros Hfetch Hfiles. rewrite get_gist_plain in Hfetch.
  unfold get_gist. rewrite bind_run, Hfetch. cbn [negb]. cbv beta iota.
  rewrite bind_run.
  destruct Hfiles as [[Hnone ->] | (items & Hitems & Hwf)].
  - rewrite Hnone. unfold ret at 1. cbv beta iota. rewrite bind_run. cbn [framed_all].
    destruct (paste_content "" w1) as [[url|e|] w2]; reflexivity.
  - rewrite Hitems. rewrite (frame_files_well_formed w1 items files Hwf "").
    cbv beta iota. rewrite bind_run. cbn [String.append].
    destruct (paste_content (framed_all files) w1) as [[url|e|] w2]; reflexivity.
Qed.

Lemma get_gist_paste_witness :
  (get_gist (sample_client 2) (PStr "abc") false paste_unavailable
   = (Ret [("files", PDict two_files); ("code", PInt 200)],
      snd (get_gist (sample_client 2) (PStr "abc") false paste_unavailable)) /\
   (Dict.get [("files", PDict two_files); ("code", PInt 200)] "files" = None /\
    [(PStr "a.txt", "hello"); (PStr "b.py", "print(1)")] = [] \/
    exists items,
      Dict.get [("files", PDict two_files); ("code", PInt 200)] "files"
        = Some (PDict items) /\
      Forall2 file_entry items [(PStr "a.txt", "hello"); (PStr "b.py", "print(1)")])) /\
  get_gist (sample_client 2) (PStr "abc") true paste_unavailable
  = match paste_content (framed_all [(PStr "a.txt", "hello"); (PStr "b.py", "print(1)")])
            (snd (get_gist (sample_client 2) (PStr "abc") false paste_unavailable)) with
    | (Ret url, w2) =>
        (Ret (Dict.set [("files", PDict two_files); ("code", PInt 200)]
                "pasted_url" (PStr url)), w2)
    | (Raise e, w2) => (Raise e, w2)
    | (Diverge, w2) => (Diverge, w2)
    end.
Proof.
  assert (Hfetch :
    get_gist (sample_client 2) (PStr "abc") false paste_unavailable
    = (Ret [("files", PDict two_files); ("code", PInt 200)],
       snd (get_gist (sample_client 2) (PStr "abc") false paste_unavailable))).
  { vm_compute. reflexivity. }
  assert (Hfiles :
    Dict.get [("files", PDict two_files); ("code", PInt 200)] "files" = None /\
    [(PStr "a.txt", "hello"); (PStr "b.py", "print(1)")] = [] \/
    exists items,
      Dict.get [("files", PDict two_files); ("code", PInt 200)] "files"
        = Some (PDict items) /\
      Forall2 file_entry items [(PStr "a.txt", "hello"); (PStr "b.py", "print(1)")]).
  { right. exists two_files. split; [reflexivity|].
    repeat constructor; eexists; repeat split; reflexivity. }
  split; [split; assumption|].
  exact (get_gist_paste (sample_client 2) (PStr "abc") paste_unavailable _ _ _ Hfetch Hfiles).
Defined.

(** X18: [paste_content] contacts the paste service once and no other
    service.  An HTTP error of the request, and an answer that is no
    success (not 2xx), are not raised but returned as text; a successful
    answer whose JSON holds [result.key] gives the URL under [nekobin.com];
    a successful answer whose JSON mapping lacks ["result"] raises
    [KeyError]. *)
Theorem paste_content_outcomes (content : string) (w : World) :
  snd (paste_content content w) = extend w [EvPaste content] /\
  (forall e, paste_service w content = PasteHTTPError e ->
     fst (paste_content content w) = Ret ("An error occurred: " ++ e)) /\
  (forall r status_error,
     paste_service w content = PasteResponse r status_error ->
     is_success r = false ->
     fst (paste_content content w) = Ret ("An error occurred: " ++ status_error)) /\
  (forall r status_error body res key,
     paste_service w content = PasteResponse r status_error ->
     is_success r = true ->
     json r = Decoded (PDict body) ->
     Dict.get body "result" = Some (PDict res) ->
     Dict.get res "key" = Some key ->
     fst (paste_content content w) = Ret ("https://nekobin.com/" ++ py_str key)) /\
  (forall r status_error body,
     paste_service w content = PasteResponse r status_error ->
     is_success r = true ->
     json r = Decoded (PDict body) ->
     Dict.get body "result" = None ->
     fst (paste_content content w) = Raise (KeyError "result")).
Proof.
  unfold paste_content. rewrite bind_run. cbv beta iota.
  change (paste_service (record (EvPaste content) w)) with (paste_service w).
  split; [|split; [|split; [|split]]].
  - unfold record. destruct (paste_service w content) as [e|r status_error]; [reflexivity|].
    destruct (is_success r); [|reflexivity]. cbn [negb]. cbv beta iota.
    destruct (json r) as [body|[]]; try reflexivity.
    rewrite bind_run. unfold getitem at 1.
    destruct body as [| | | | |d]; try reflexivity.
    destruct (Dict.get d "result") as [res|]; [|reflexivity].
    unfold ret at 1. cbv beta iota. rewrite bind_run. unfold getitem.
    destruct res as [| | | | |d']; try reflexivity.
    destruct (Dict.get d' "key"); reflexivity.
  - intros e ->. reflexivity.
  - intros r status_error -> ->. reflexivity.
  - intros r status_error body res key -> -> -> Hres Hkey. cbn [negb]. cbv beta iota.
    rewrite bind_run. unfold getitem at 1. rewrite Hres. unfold ret at 1. cbv beta iota.
    rewrite bind_run. unfold getitem. rewrite Hkey. reflexivity.
  - intros r status_error body -> -> -> Hres. cbn [negb]. cbv beta iota.
    rewrite bind_run. unfold getitem at 1. rewrite Hres. reflexivity.
Qed.

(** * Further properties of [update_gist] *)

(** X19: when the fetched gist holds the file to update and [content] is a
    string, [update_gist] goes on from the world the fetch left.  If
    [content] is the path of a file, the file is read: a failure of that
    is raised and nothing is sent, and otherwise the new text is the file's
    text stripped of white space; if [content] is no path of a file, the
    new text is [content] itself.  The second call of the executor is a
    [PATCH] of the gist whose body is the description (the empty default
    included) and that one file with the new text. *)
Theorem update_gist_patches (self : Requester) (text : string) (gist_id : pyval)
    (filename_to_update description : string) (w w1 : World) (gist files : dict) :
  get_gist self gist_id false w = (Ret gist, w1) ->
  Dict.get gist "files" = Some (PDict files) ->
  Dict.mem files filename_to_update = true ->
  update_gist self (PStr text) gist_id filename_to_update description w
  = let patch := fun new_text : string =>
      _async_request self "PATCH" ("/" ++ py_str gist_id)
        (Some [ ("description", PStr description);
                ("files", PDict [(filename_to_update,
                                  PDict [("content", PStr new_text)])]) ])
        None w1 in
    match file_at w1 text with
    | Some (ReadText on_disk) => patch (Str.strip on_disk)
    | Some (ReadFails e) => (Raise e, w1)
    | None => patch text
    end.
Proof.
  intros Hfetch Hfiles Hmem.
  unfold update_gist. rewrite bind_run, Hfetch, Hfiles.
  rewrite bind_run. unfold py_in, ret at 1. rewrite Hmem.
  cbn [negb isinstance_str]. cbv beta iota zeta.
  rewrite bind_run. unfold os_path_isfile.
  destruct (file_at w1 text) as [[on_disk|e]|] eqn:Hdisk; cbv beta iota.
  - rewrite bind_run, bind_run. unfold read_file, open_read. cbn [py_str]. rewrite Hdisk.
    reflexivity.
  - rewrite bind_run, bind_run. unfold read_file, open_read. cbn [py_str]. rewrite Hdisk.
    reflexivity.
  - rewrite bind_run. reflexivity.
Qed.

Lemma update_gist_patches_witness :
  (get_gist (sample_client 2) (PStr "abc") false serves_two_files
   = (Ret [("files", PDict two_files); ("code", PInt 200)],
      snd (get_gist (sample_client 2) (PStr "abc") false serves_two_files)) /\
   Dict.get [("files", PDict two_files); ("code", PInt 200)] "files"
     = Some (PDict two_files) /\
   Dict.mem two_files "b.py" = true) /\
  update_gist (sample_client 2) (PStr "print(2)") (PStr "abc") "b.py" "" serves_two_files
  = let patch := fun new_text : string =>
      _async_request (sample_client 2) "PATCH" ("/" ++ py_str (PStr "abc"))
        (Some [ ("description", PStr "");
                ("files", PDict [("b.py", PDict [("content", PStr new_text)])]) ])
        None (snd (get_gist (sample_client 2) (PStr "abc") false serves_two_files)) in
    match file_at (snd (get_gist (sample_client 2) (PStr "abc") false serves_two_files))
            "print(2)" with
    | Some (ReadText on_disk) => patch (Str.strip on_disk)
    | Some (ReadFails e) =>
        (Raise e, snd (get_gist (sample_client 2) (PStr "abc") false serves_two_files))
    | None => patch "print(2)"
    end.
Proof.
  assert (Hfetch :
    get_gist (sample_client 2) (PStr "abc") false serves_two_files
    = (Ret [("files", PDict two_files); ("code", PInt 200)],
       snd (get_gist (sample_client 2) (PStr "abc") false serves_two_files))).
  { vm_compute. reflexivity. }
  split; [split; [exact Hfetch | split; reflexivity]|].
  exact (update_gist_patches (sample_client 2) "print(2)" (PStr "abc") "b.py" ""
           serves_two_files _ _ two_files Hfetch eq_refl eq_refl).
Defined.

Lemma py_in_pure (name : string) (v : pyval) (w : World) :
  py_in name v w = (fst (py_in name v w), w).
Proof. destruct v; reflexivity. Qed.

(** X20: whatever its arguments and whatever the server does,
    [update_gist] only appends events to the world, and it makes an
    exchange other than a [GET] only when [content] is a string, the fetch
    returned a gist with ["files"] and the file name was found in them. *)
Theorem update_gist_patch_only_after_checks (self : Requester) (content gist_id : pyval)
    (filename_to_update description : string) (w : World) :
  exists evs,
    snd (update_gist self content gist_id filename_to_update description w)
      = extend w evs /\
    ((exists rq, In (EvRequest rq) evs /\ rq_method rq <> "GET") ->
     isinstance_str content = true /\
     exists gist w1 gist_files,
       get_gist self gist_id false w = (Ret gist, w1) /\
       Dict.get gist "files" = Some gist_files /\
       fst (py_in filename_to_update gist_files w1) = Ret true).
Proof.
  destruct (async_request_events self "GET" ("/" ++ py_str gist_id) None None w)
    as (evs1 & Hsnd & _ & Hall).
  rewrite <- get_gist_plain in Hsnd.
  assert (Hgets : (exists rq, In (EvRequest rq) evs1 /\ rq_method rq <> "GET") -> False).
  { intros (rq & Hin & Hne). apply Hne. now rewrite (Hall rq Hin). }
  unfold update_gist. rewrite bind_run.
  destruct (get_gist self gist_id false w) as [[gist|e|] w1] eqn:Hfetch;
    simpl snd in Hsnd; subst w1;
    try (exists evs1; split; [reflexivity | intros H; destruct (Hgets H)]).
  destruct (Dict.get gist "files") as [gist_files|] eqn:Hfiles;
    [|exists evs1; split; [reflexivity | intros H; destruct (Hgets H)]].
  rewrite bind_run, py_in_pure.
  destruct (fst (py_in filename_to_update gist_files (extend w evs1)))
    as [[|]|e|] eqn:Hin;
    try (exists evs1; split; [reflexivity | intros H; destruct (Hgets H)]).
  cbn [negb]. cbv beta iota.
  destruct (isinstance_str content) eqn:Hstr;
    [|exists evs1; split; [reflexivity | intros H; destruct (Hgets H)]].
  destruct content as [| | |text| |]; try discriminate.
  cbn [negb]. cbv beta iota. rewrite bind_run. unfold os_path_isfile.
  assert (Hpatch : forall new_text, exists evs,
    snd (_async_request self "PATCH" ("/" ++ py_str gist_id)
           (Some (Dict.set [("description", PStr description)] "files"
                    (PDict [(filename_to_update, PDict [("content", new_text)])])))
           None (extend w evs1)) = extend w evs).
  { intros new_text.
    destruct (async_request_events self "PATCH" ("/" ++ py_str gist_id)
                (Some (Dict.set [("description", PStr description)] "files"
                         (PDict [(filename_to_update, PDict [("content", new_text)])])))
                None (extend w evs1)) as (evs2 & -> & _).
    exists (evs1 ++ evs2)%list. apply extend_extend. }
  destruct (file_at (extend w evs1) text) as [[on_disk|e]|] eqn:Hdisk; cbv beta iota;
    [| rewrite bind_run, bind_run; unfold read_file, open_read; cbn [py_str];
       rewrite Hdisk; exists evs1; split; [reflexivity | intros H; destruct (Hgets H)] |].
  - rewrite bind_run, bind_run. unfold read_file, open_read. cbn [py_str]. rewrite Hdisk.
    unfold ret at 1. cbv beta iota.
    destruct (Hpatch (PStr (Str.strip on_disk))) as (evs & Hevs).
    exists evs. split; [exact Hevs|]. intros _. split; [reflexivity|].
    exists gist, (extend w evs1), gist_files. auto.
  - rewrite bind_run. unfold ret at 1. cbv beta iota.
    destruct (Hpatch (PStr text)) as (evs & Hevs).
    exists evs. split; [exact Hevs|]. intros _. split; [reflexivity|].
    exists gist, (extend w evs1), gist_files. auto.
Qed.

(** * Further properties of the operations *)

(** X21: with arguments that pass validation, [list_gists] hands
    [per_page], [page] and [since] to the executor as query parameters, in
    that order and [since] even when empty, and [gist_commits] and
    [gist_forks] hand it [per_page] and [page], as they were given. *)
Theorem pagination_arguments_forwarded (self : Requester)
    (per_page page since gist_id : pyval) (w : World) :
  valid_page_args per_page page ->
  list_gists self per_page page since w
  = _async_request self "GET" "" None
      (Some [("per_page", per_page); ("page", page); ("since", since)]) w /\
  gist_commits self gist_id per_page page w
  = _async_request self "GET" ("/" ++ py_str gist_id ++ "/commits") None
      (Some [("per_page", per_page); ("page", page)]) w /\
  gist_forks self gist_id per_page page w
  = _async_request self "GET" ("/" ++ py_str gist_id ++ "/forks") None
      (Some [("per_page", per_page); ("page", page)]) w.
Proof.
  intros (Hi & Hle & Hp). unfold list_gists, gist_commits, gist_forks.
  rewrite Hi, Hp. cbn [negb orb].
  destruct (Z.gtb_spec (int_value per_page) 100); [lia|]. repeat split.
Qed.

Lemma pagination_arguments_forwarded_witness :
  valid_page_args (PInt 100) (PBool true) /\
  list_gists (sample_client 2) (PInt 100) (PBool true) (PStr "") serves_gist
  = _async_request (sample_client 2) "GET" "" None
      (Some [("per_page", PInt 100); ("page", PBool true); ("since", PStr "")]) serves_gist /\
  gist_commits (sample_client 2) (PInt 42) (PInt 100) (PBool true) serves_gist
  = _async_request (sample_client 2) "GET" ("/" ++ py_str (PInt 42) ++ "/commits") None
      (Some [("per_page", PInt 100); ("page", PBool true)]) serves_gist /\
  gist_forks (sample_client 2) (PInt 42) (PInt 100) (PBool true) serves_gist
  = _async_request (sample_client 2) "GET" ("/" ++ py_str (PInt 42) ++ "/forks") None
      (Some [("per_page", PInt 100); ("page", PBool true)]) serves_gist.
Proof.
  assert (V : valid_page_args (PInt 100) (PBool true)).
  { unfold valid_page_args; simpl; repeat split; lia. }
  split; [exact V|].
  exact (pagination_arguments_forwarded (sample_client 2) (PInt 100) (PBool true)
           (PStr "") (PInt 42) serves_gist V).
Defined.

(** A paginated operation either rejects its arguments or is one call of
    the executor. *)
Lemma call_paginated_cases (self : Requester) (op : paginated)
    (per_page page : pyval) (w : World) :
  (~ valid_page_args per_page page /\
   exists msg, call_paginated self op per_page page w = (Raise (InvalidArg msg), w)) \/
  (valid_page_args per_page page /\
   exists endpoint params,
     call_paginated self op per_page page w
     = _async_request self "GET" endpoint None params w).
Proof.
  unfold valid_page_args.
  destruct (isinstance_int per_page) eqn:Hi.
  - destruct (Z.gtb_spec (int_value per_page) 100) as [Hgt|Hle].
    + left. split; [intros (_ & H & _); lia|].
      destruct op; unfold call_paginated, list_gists, public_gists, starred_gists,
        gist_commits, gist_forks; rewrite Hi;
        destruct (Z.gtb_spec (int_value per_page) 100); try lia;
        eexists; reflexivity.
    + destruct (isinstance_int page) eqn:Hp.
      * right. split; [repeat split; lia|].
        destruct op; unfold call_paginated, list_gists, public_gists, starred_gists,
          gist_commits, gist_forks; rewrite Hi, Hp;
          destruct (Z.gtb_spec (int_value per_page) 100); try lia;
          eexists; eexists; reflexivity.
      * left. split; [intros (_ & _ & H); discriminate|].
        destruct op; unfold call_paginated, list_gists, public_gists, starred_gists,
          gist_commits, gist_forks; rewrite Hi, Hp;
          destruct (Z.gtb_spec (int_value per_page) 100); try lia;
          eexists; reflexivity.
  - left. split; [intros (H & _); discriminate|].
    destruct op; unfold call_paginated, list_gists, public_gists, starred_gists,
      gist_commits, gist_forks; rewrite Hi; eexists; reflexivity.
Qed.

(** X22: a paginated operation raises an exception whose class is
    [InvalidArg] itself exactly when [per_page] is not an [int] or exceeds
    100, or [page] is not an [int].  An [except InvalidArg] handler catches
    more: with valid arguments it also catches the [UnExpectedError], a
    subclass of [InvalidArg], that the executor raises for a failed
    exchange, and nothing else. *)
Theorem paginated_invalid_arg_iff (self : Requester) (op : paginated)
    (per_page page : pyval) (w : World) :
  ((exists msg, fst (call_paginated self op per_page page w) = Raise (InvalidArg msg))
   <-> ~ valid_page_args per_page page) /\
  (forall e,
     fst (call_paginated self op per_page page w) = Raise e ->
     is_InvalidArg e = true ->
     (~ valid_page_args per_page page /\ exists msg, e = InvalidArg msg) \/
     (valid_page_args per_page page /\
      exists m, e = UnExpectedError ("An Unexpected error occurred: " ++ m))).
Proof.
  destruct (call_paginated_cases self op per_page page w)
    as [(Hbad & msg & ->) | (Hok & endpoint & params & ->)].
  - split.
    + split; [intros _; exact Hbad | intros _; exists msg; reflexivity].
    + intros e H _. injection H as <-. left. split; [exact Hbad | now exists msg].
  - assert (Hcases : forall e,
      fst (_async_request self "GET" endpoint None params w) = Raise e ->
      is_InvalidArg e = true ->
      exists m, e = UnExpectedError ("An Unexpected error occurred: " ++ m)).
    { intros e H Hi.
      destruct (executor_raise_cases self "GET" endpoint None params w e H)
        as [(m & ->)|[(m & ->)|[(m & ->)|[(m & ->)|[(m & ->)|(_ & ->)]]]]];
        try discriminate. now exists m. }
    split.
    + split; [|intros H; contradiction].
      intros (msg & H). destruct (Hcases _ H eq_refl) as (m & Hm). discriminate.
    + intros e H Hi. right. split; [exact Hok | exact (Hcases e H Hi)].
Qed.

(** An exchange answered at the first attempt: one exchange, one sleep. *)
Lemma first_answer (self : Requester) (method endpoint : string)
    (data params : option dict) (w : World) (r : Response) :
  0 <= retries self ->
  transport w (network_calls w) (make_request self method endpoint data params)
    = Received r ->
  _async_request self method endpoint data params w
  = (normalize (Some r),
     extend w (attempt_events (make_request self method endpoint data params)
                 (sleep_time self) 1)).
Proof.
  intros Hr Hrecv.
  assert (Hi : (network_calls w <= network_calls w
                < network_calls (snd (_async_request self method endpoint data params w)))%nat).
  { destruct (async_request_events self method endpoint data params w)
      as (evs & -> & Hpos & _).
    rewrite network_calls_extend. specialize (Hpos Hr). lia. }
  destruct (received_is_last self method endpoint data params w (network_calls w) r
              Hi Hrecv) as (_ & Hfst & Hsnd).
  rewrite Nat.sub_diag in Hsnd.
  rewrite (surjective_pairing (_async_request self method endpoint data params w)).
  now rewrite Hfst, Hsnd.
Qed.

(** X23: two [star_gist] calls in a row, each answered at its first
    attempt, make two exchanges, both the same [PUT] of [/<id>/star]; the
    second call does not reuse the first answer but returns what the
    second exchange was answered. *)
Theorem star_gist_twice (self : Requester) (gist_id : pyval) (w : World)
    (r1 r2 : Response) :
  let rq := make_request self "PUT" ("/" ++ py_str gist_id ++ "/star") None None in
  0 <= retries self ->
  transport w (network_calls w) rq = Received r1 ->
  (json r1 = Invalid NotJSON \/ exists body, json r1 = Decoded (PDict body)) ->
  transport w (S (network_calls w)) rq = Received r2 ->
  (star_gist self gist_id ;; star_gist self gist_id) w
  = (normalize (Some r2), extend w (attempt_events rq (sleep_time self) 2)).
Proof.
  intros rq Hr H1 Hbody H2. rewrite bind_run. unfold star_gist.
  rewrite (first_answer self "PUT" ("/" ++ py_str gist_id ++ "/star") None None w r1 Hr H1).
  fold rq.
  assert (Hret : exists d, normalize (Some r1) = Ret d).
  { unfold normalize. destruct Hbody as [-> | (body & ->)]; eexists; reflexivity. }
  destruct Hret as (d & ->).
  rewrite (first_answer self "PUT" ("/" ++ py_str gist_id ++ "/star") None None _ r2 Hr).
  - fold rq. now rewrite extend_extend.
  - rewrite network_calls_extend, count_attempt_events, transport_extend.
    fold rq. now replace (network_calls w + 1)%nat with (S (network_calls w)) by lia.
Qed.

Lemma star_gist_twice_witness :
  (0 <= retries (sample_client 2) /\
   transport answers_twice (network_calls answers_twice)
     (make_request (sample_client 2) "PUT" ("/" ++ py_str (PStr "abc") ++ "/star") None None)
     = Received (mkResponse 204 (Invalid NotJSON)) /\
   (json (mkResponse 204 (Invalid NotJSON)) = Invalid NotJSON \/
    exists body, json (mkResponse 204 (Invalid NotJSON)) = Decoded (PDict body)) /\
   transport answers_twice (S (network_calls answers_twice))
     (make_request (sample_client 2) "PUT" ("/" ++ py_str (PStr "abc") ++ "/star") None None)
     = Received (mkResponse 204 (Invalid NotJSON))) /\
  (star_gist (sample_client 2) (PStr "abc") ;; star_gist (sample_client 2) (PStr "abc"))
    answers_twice
  = (normalize (Some (mkResponse 204 (Invalid NotJSON))),
     extend answers_twice
       (attempt_events
          (make_request (sample_client 2) "PUT" ("/" ++ py_str (PStr "abc") ++ "/star")
             None None)
          (sleep_time (sample_client 2)) 2)).
Proof.
  assert (Hr : 0 <= retries (sample_client 2)) by (simpl; lia).
  assert (Hb : json (mkResponse 204 (Invalid NotJSON)) = Invalid NotJSON \/
               exists body, json (mkResponse 204 (Invalid NotJSON)) = Decoded (PDict body))
    by (left; reflexivity).
  split; [split; [exact Hr | split; [reflexivity | split; [exact Hb | reflexivity]]]|].
  exact (star_gist_twice (sample_client 2) (PStr "abc") answers_twice
           (mkResponse 204 (Invalid NotJSON)) (mkResponse 204 (Invalid NotJSON)) Hr eq_refl Hb eq_refl).
Defined.
